(** * Session broker: slot allocation and session lifecycle

    A shallow embedding of
      - [auth_service/instance_manager.py]  (class [InstanceManager])
      - [auth_service/main.py]              (class [SessionStore])

    The Python objects are mutable and their methods raise exceptions, so the
    methods are embedded in a state-and-exception monad over one [State]
    record that holds the manager's [_instances] dictionary, the SQLite
    [sessions] table and the part of the operating system the code talks to
    (child processes and VNC displays).

    What the code reads from its environment is made an explicit input:
      - [uuid.uuid4()] and [int(time.time())] are parameters [session_id] and
        [now_ts] of the operation that calls them;
      - the outcome of the three launch steps is a [Backend] record passed to
        the operation that launches ([start_session], [ensure_session]);
      - how a child process reacts to SIGTERM is recorded with the process.

    Each operation is modelled as it runs when no other thread interleaves
    with it (the registry mutations are under [InstanceManager._lock]). *)

From Stdlib Require Import ZArith Lia.
From stdpp Require Import base gmap strings list fin_maps.

Local Open Scope Z_scope.

(** ** Data *)

(** [subprocess.Popen] handles are indices into the process table. *)
Abbreviation Popen := nat (only parsing).

(** How a child reacts to [terminate()] (SIGTERM). *)
Inductive TermResponse := ExitsOnTerm | IgnoresTerm.

Record Proc := mkProc {
  running : bool;            (* [poll() is None] *)
  on_term : TermResponse
}.

(** The dataclass [Instance]. *)
Record Instance := mkInstance {
  session_id : string;
  username : string;
  display : Z;
  websocket_port : Z;
  processes : list Popen
}.

(** A row of table [sessions]; the key column [session_id] is the key of the
    map that holds the rows.  [display] and [websocket_port] are nullable. *)
Record Row := mkRow {
  col_username : string;
  col_display : option Z;
  col_websocket_port : option Z;
  col_created_at : Z;
  col_last_seen : Z
}.

(** Calls made to external programs and to child processes, in order. *)
Inductive Call :=
| CVncKill (display : Z)                       (* vncserver -kill :d *)
| CVncStart (display : Z)                      (* vncserver :d ...   *)
| CSleep (seconds : Z)
| CSpawnDosbox (display : Z) (p : Popen)
| CSpawnWebsockify (port display : Z) (p : Popen)
| CTerminate (p : Popen)
| CWait (p : Popen) (timeout : Z)
| CKill (p : Popen).

Record State := mkState {
  _instances : gmap string Instance;   (* InstanceManager._instances *)
  sessions : gmap string Row;          (* table sessions             *)
  procs : list Proc;                   (* every child ever spawned   *)
  vnc : gset Z;                        (* displays with a VNC server *)
  calls : list Call                    (* most recent call last      *)
}.

Record Config := mkConfig {
  base_display : Z;
  max_instances : Z;
  base_websocket_port : Z;
  idle_timeout : Z;
  absolute_timeout : Z
}.

(** Outcome of the launch steps of one provisioning attempt: the return code
    of [vncserver :d], and for each [Popen] either the behaviour of the child
    or [None] when [Popen] raises [OSError]. *)
Record Backend := mkBackend {
  vnc_returncode : Z;
  dosbox_launch : option TermResponse;
  websockify_launch : option TermResponse
}.

(** Exceptions.  The four [InstanceError]s are told apart by their message. *)
Inductive exn :=
| OSError
| TimeoutExpired
| IntegrityError
| NoFreeSlots                     (* InstanceError("No free session slots available") *)
| VncStartFailed (display : Z)    (* InstanceError("Failed to start VNC server ...")  *)
| FailedToProvision (cause : exn) (* InstanceError(f"Failed to provision session: {exc}") *)
| FailedToResume (cause : exn).   (* InstanceError(f"Failed to resume session: {exc}")    *)

Definition is_InstanceError (e : exn) : bool :=
  match e with
  | NoFreeSlots | VncStartFailed _ | FailedToProvision _ | FailedToResume _ => true
  | OSError | TimeoutExpired | IntegrityError => false
  end.

(** ** The monad *)

Inductive result (A : Type) :=
| Ok (a : A)
| Raise (e : exn).
Arguments Ok {A} a.
Arguments Raise {A} e.

Definition M (A : Type) : Type := State → result A * State.

#[global] Instance M_ret : MRet M := λ A a st, (Ok a, st).
#[global] Instance M_bind : MBind M := λ A B f m st,
  match m st with
  | (Ok a, st') => f a st'
  | (Raise e, st') => (Raise e, st')
  end.

Definition raise {A} (e : exn) : M A := λ st, (Raise e, st).
Definition get : M State := λ st, (Ok st, st).
Definition modify (f : State → State) : M unit := λ st, (Ok tt, f st).

(** [try: body  except Exception as exc: handler exc] *)
Definition try_except {A} (body : M A) (handler : exn → M A) : M A := λ st,
  match body st with
  | (Ok a, st') => (Ok a, st')
  | (Raise e, st') => handler e st'
  end.

(** [for x in l: f x] *)
Fixpoint for_each {A} (l : list A) (f : A → M unit) : M unit :=
  match l with
  | [] => mret tt
  | x :: rest => f x;; for_each rest f
  end.

(** ** State updates *)

Definition set_instances (f : gmap string Instance → gmap string Instance) (st : State) : State :=
  mkState (f (_instances st)) (sessions st) (procs st) (vnc st) (calls st).
Definition set_sessions (f : gmap string Row → gmap string Row) (st : State) : State :=
  mkState (_instances st) (f (sessions st)) (procs st) (vnc st) (calls st).
Definition set_procs (f : list Proc → list Proc) (st : State) : State :=
  mkState (_instances st) (sessions st) (f (procs st)) (vnc st) (calls st).
Definition set_vnc (f : gset Z → gset Z) (st : State) : State :=
  mkState (_instances st) (sessions st) (procs st) (f (vnc st)) (calls st).
Definition log (c : Call) (st : State) : State :=
  mkState (_instances st) (sessions st) (procs st) (vnc st) (calls st ++ [c]).

(** ** Processes and VNC *)

(** [proc.poll() is None]; a handle outside the table is not running. *)
Definition is_running (st : State) (p : Popen) : bool :=
  match procs st !! p with
  | Some pr => running pr
  | None => false
  end.

Definition exit_proc (pr : Proc) : Proc := mkProc false (on_term pr).

Definition poll_is_None (p : Popen) : M bool := λ st, (Ok (is_running st p), st).

(** [proc.terminate()]: the child exits unless it ignores SIGTERM. *)
Definition on_sigterm (pr : Proc) : Proc :=
  match on_term pr with
  | ExitsOnTerm => exit_proc pr
  | IgnoresTerm => pr
  end.

Definition terminate (p : Popen) : M unit :=
  modify (λ st, log (CTerminate p) (set_procs (alter on_sigterm p) st)).

(** [proc.wait(timeout=t)]: raises [TimeoutExpired] if still running. *)
Definition wait (p : Popen) (timeout : Z) : M unit := λ st,
  let st' := log (CWait p timeout) st in
  if is_running st p then (Raise TimeoutExpired, st') else (Ok tt, st').

(** [proc.kill()] (SIGKILL). *)
Definition kill (p : Popen) : M unit :=
  modify (λ st, log (CKill p) (set_procs (alter exit_proc p) st)).

(** [subprocess.run([vnc_binary, "-kill", f":{display}"], check=False)] *)
Definition vnc_kill (d : Z) : M unit :=
  modify (λ st, log (CVncKill d) (set_vnc (λ s, s ∖ {[d]}) st)).

(** [_spawn_process]: [Popen] either raises [OSError] or yields a new child. *)
Definition _spawn_process (launch : option TermResponse) (c : Popen → Call) : M Popen := λ st,
  match launch with
  | None => (Raise OSError, st)
  | Some tr =>
      let p := length (procs st) in
      (Ok p, log (c p) (set_procs (λ ps, ps ++ [mkProc true tr]) st))
  end.

Definition sleep (seconds : Z) : M unit := modify (log (CSleep seconds)).

(** [range(n)] *)
Definition range (n : Z) : list Z := Z.of_nat <$> seq 0 (Z.to_nat n).

(** ** instance_manager.py *)

Module InstanceManager.
Section InstanceManager.
Variable cfg : Config.

(** [{instance.display for instance in self._instances.values()}] *)
Definition used_displays (st : State) : gset Z :=
  map_img (display <$> _instances st).

(** The [for offset in range(...)] loop of [_allocate_slot]. *)
Fixpoint first_free (used : gset Z) (offsets : list Z) : option (Z * Z) :=
  match offsets with
  | [] => None
  | offset :: rest =>
      let display := base_display cfg + offset in
      if decide (display ∉ used)
      then Some (display, base_websocket_port cfg + offset)
      else first_free used rest
  end.

Definition _allocate_slot : M (Z * Z) :=
  st ← get;
  match first_free (used_displays st) (range (max_instances cfg)) with
  | Some slot => mret slot
  | None => raise NoFreeSlots
  end.

Definition _start_vnc (be : Backend) (display : Z) : M unit :=
  vnc_kill display;;
  modify (log (CVncStart display));;
  if decide (vnc_returncode be ≠ 0)
  then raise (VncStartFailed display)
  else modify (set_vnc (λ s, {[display]} ∪ s)).

Definition _start_dosbox (be : Backend) (display : Z) : M Popen :=
  _spawn_process (dosbox_launch be) (CSpawnDosbox display).

Definition _start_websockify (be : Backend) (websocket_port display : Z) : M Popen :=
  _spawn_process (websockify_launch be) (CSpawnWebsockify websocket_port display).

(** [if proc.poll() is None: proc.terminate()] *)
Definition terminate_if_running (proc : Popen) : M unit :=
  alive ← poll_is_None proc;
  if (alive : bool) then terminate proc else mret tt.

(** The [except] clause reads the local list [processes] as it is when the
    exception is raised, so each statement of the [try] block is paired
    with the handler at the value [processes] has at that statement. *)
Definition start_session (be : Backend) (session_id username : string) : M (Z * Z) :=
  st ← get;
  match _instances st !! session_id with
  | Some instance => mret (display instance, websocket_port instance)
  | None =>
      '(display, ws_port) ← _allocate_slot;
      let except (processes : list Popen) {A} (exc : exn) : M A :=
        for_each processes terminate_if_running;;
        vnc_kill display;;
        raise (FailedToProvision exc) in
      try_except (_start_vnc be display;; sleep 1) (except []);;
      dosbox_proc ← try_except (_start_dosbox be display) (except []);
      ws_proc ← try_except (_start_websockify be ws_port display) (except [dosbox_proc]);
      modify (set_instances
        <[session_id := mkInstance session_id username display ws_port [dosbox_proc; ws_proc]]>);;
      mret (display, ws_port)
  end.

Definition ensure_session (be : Backend) (session_id username : string)
    (display websocket_port : Z) : M unit :=
  st ← get;
  match _instances st !! session_id with
  | Some _ => mret tt
  | None =>
      let except (processes : list Popen) {A} (exc : exn) : M A :=
        for_each processes terminate_if_running;;
        vnc_kill display;;
        raise (FailedToResume exc) in
      try_except (_start_vnc be display;; sleep 1) (except []);;
      dosbox_proc ← try_except (_start_dosbox be display) (except []);
      ws_proc ← try_except (_start_websockify be websocket_port display) (except [dosbox_proc]);
      modify (set_instances
        <[session_id := mkInstance session_id username display websocket_port [dosbox_proc; ws_proc]]>)
  end.

(** The body of the loop over [instance.processes] in [stop_session]. *)
Definition stop_process (proc : Popen) : M unit :=
  alive ← poll_is_None proc;
  if (alive : bool) then
    terminate proc;;
    try_except (wait proc 5)
      (λ e, match e with TimeoutExpired => kill proc | _ => raise e end)
  else mret tt.

Definition stop_session (session_id : string) : M unit :=
  st ← get;
  modify (set_instances (delete session_id));;     (* [_instances.pop(session_id, None)] *)
  match _instances st !! session_id with
  | None => mret tt
  | Some instance =>
      for_each (processes instance) stop_process;;
      vnc_kill (display instance)
  end.

(** [list(self._instances.keys())] followed by the loop.  Python yields the
    keys in insertion order, which the registry map does not record; the
    keys are taken here in the order of the map, and the properties proved
    of [stop_all] are proved for every order of the keys. *)
Definition stop_all : M unit :=
  st ← get;
  let session_ids := (map_to_list (_instances st)).*1 in
  for_each session_ids stop_session.

End InstanceManager.
End InstanceManager.

Import InstanceManager.

(** ** main.py *)

(** The dictionary returned by [create_session]. *)
Record SessionInfo := mkSessionInfo {
  si_session_id : string;
  si_created_at : Z;
  si_display : Z;
  si_websocket_port : Z
}.

(** The dictionary returned by [validate]. *)
Record SessionData := mkSessionData {
  sd_username : string;
  sd_created_at : Z;
  sd_last_seen : Z;
  sd_display : Z;
  sd_websocket_port : Z
}.

Module SessionStore.
Section SessionStore.
Variable cfg : Config.

(** [WHERE (? - last_seen) > ? OR (? - created_at) > ?] *)
Definition expired (now_ts : Z) (r : Row) : bool :=
  (now_ts - col_last_seen r >? idle_timeout cfg)
  || (now_ts - col_created_at r >? absolute_timeout cfg).

(** [SELECT session_id FROM sessions WHERE ...] *)
Definition select_ids (P : Row → bool) (st : State) : list string :=
  (map_to_list (filter (λ kr, P kr.2 = true) (sessions st))).*1.

(** [DELETE FROM sessions WHERE ...] *)
Definition delete_where (P : Row → bool) : M unit :=
  modify (set_sessions (filter (λ kr, P kr.2 ≠ true))).

(** [INSERT INTO sessions ...]; [session_id] is the primary key. *)
Definition insert_row (session_id : string) (r : Row) : M unit :=
  st ← get;
  match sessions st !! session_id with
  | Some _ => raise IntegrityError
  | None => modify (set_sessions <[session_id := r]>)
  end.

Definition set_last_seen (now_ts : Z) (r : Row) : Row :=
  mkRow (col_username r) (col_display r) (col_websocket_port r) (col_created_at r) now_ts.

Definition _cleanup_expired (now_ts : Z) : M unit :=
  st ← get;
  let stale_ids := select_ids (expired now_ts) st in
  delete_where (expired now_ts);;
  for_each stale_ids stop_session.

Definition owned_by (username : string) (r : Row) : bool :=
  bool_decide (col_username r = username).

(** [session_id] is the value of [str(uuid.uuid4())] and [now_ts] the value
    of [int(time.time())] in this call. *)
Definition create_session (session_id : string) (now_ts : Z) (be : Backend)
    (username : string) : M SessionInfo :=
  st ← get;
  let old_sessions := select_ids (owned_by username) st in
  delete_where (owned_by username);;
  for_each old_sessions stop_session;;
  '(display, ws_port) ← start_session cfg be session_id username;
  insert_row session_id (mkRow username (Some display) (Some ws_port) now_ts now_ts);;
  mret (mkSessionInfo session_id now_ts display ws_port).

Definition validate (now_ts : Z) (be : Backend) (session_id : string)
    : M (option SessionData) :=
  if decide (session_id = ""%string) then mret None else
  _cleanup_expired now_ts;;
  st ← get;
  match sessions st !! session_id with
  | None => mret None
  | Some row =>
      let last_seen := col_last_seen row in
      modify (set_sessions (alter (set_last_seen now_ts) session_id));;
      match col_display row, col_websocket_port row with
      | Some display, Some ws_port =>
          ensure_session be session_id (col_username row) display ws_port;;
          mret (Some (mkSessionData (col_username row) (col_created_at row) last_seen
                        display ws_port))
      | _, _ => mret None
      end
  end.

Definition delete (session_id : string) : M unit :=
  if decide (session_id = ""%string) then mret tt else
  modify (set_sessions (base.delete session_id));;
  stop_session session_id.

End SessionStore.
End SessionStore.

(** ** main.py: the request handlers *)

(** What the handlers read from a request: the cookie [SESSION_ID] and the
    header [X-Session-Id] (header names are matched without regard to case,
    so [headers.get("x-session-id")] reads the same field); [None] when the
    request does not carry it. *)
Record Request := mkRequest {
  cookie_SESSION_ID : option string;
  header_X_Session_Id : option string
}.

(** The model [SessionResponse]. *)
Record SessionResponse := mkSessionResponse {
  resp_username : string;
  resp_issued_at : Z;
  resp_last_seen : Z;
  resp_websocket_port : Z;
  resp_idle_timeout_seconds : Z;
  resp_absolute_timeout_seconds : Z
}.

(** What a handler does: respond, raise [HTTPException(status_code)], or let
    another exception escape. *)
Inductive reply (A : Type) :=
| Respond (a : A)
| HTTPException (status_code : Z)
| Uncaught (e : exn).
Arguments Respond {A} a.
Arguments HTTPException {A} status_code.
Arguments Uncaught {A} e.

Definition HTTP_401_UNAUTHORIZED : Z := 401.
Definition HTTP_503_SERVICE_UNAVAILABLE : Z := 503.

Module Gateway.
Section Gateway.
Variable cfg : Config.
(** The dictionary [USERS], user name to password. *)
Variable USERS : gmap string string.

(** [a or b] where [a] is [None] or a string: [b] unless [a] is a non-empty
    string. *)
Definition or_else (a : option string) (b : string) : string :=
  match a with
  | Some s => if decide (s = ""%string) then b else s
  | None => b
  end.

(** [return header or cookie or ""] *)
Definition get_session_id_from_request (request : Request) : string :=
  or_else (header_X_Session_Id request) (or_else (cookie_SESSION_ID request) "").

(** The dictionary [validate] returned, with ["session_id"] added. *)
Definition require_session (now_ts : Z) (be : Backend) (request : Request)
    : State → reply (string * SessionData) * State := λ st,
  let session_id := get_session_id_from_request request in
  match SessionStore.validate cfg now_ts be session_id st with
  | (Ok (Some data), st') => (Respond (session_id, data), st')
  | (Ok None, st') => (HTTPException HTTP_401_UNAUTHORIZED, st')
  | (Raise e, st') => (Uncaught e, st')
  end.

(** The response of [login] and the value it sets cookie [SESSION_ID] to;
    [session_id] and [now_ts] are the uuid and the time [create_session]
    draws. *)
Definition login (session_id : string) (now_ts : Z) (be : Backend)
    (payload_username payload_password : string)
    : State → reply (SessionResponse * string) * State := λ st,
  match USERS !! payload_username with
  | None => (HTTPException HTTP_401_UNAUTHORIZED, st)
  | Some expected_password =>
      if decide (expected_password ≠ payload_password)
      then (HTTPException HTTP_401_UNAUTHORIZED, st)
      else
        match SessionStore.create_session cfg session_id now_ts be payload_username st with
        | (Ok session_data, st') =>
            let now_ts := si_created_at session_data in
            (Respond (mkSessionResponse payload_username now_ts now_ts
                        (si_websocket_port session_data)
                        (idle_timeout cfg) (absolute_timeout cfg),
                      si_session_id session_data), st')
        | (Raise error, st') =>
            if is_InstanceError error
            then (HTTPException HTTP_503_SERVICE_UNAVAILABLE, st')
            else (Uncaught error, st')
        end
  end.

Definition logout (now_ts : Z) (be : Backend) (request : Request)
    : State → reply unit * State := λ st,
  match require_session now_ts be request st with
  | (Respond (session_id, _), st') =>
      match SessionStore.delete session_id st' with
      | (Ok _, st'') => (Respond tt, st'')
      | (Raise e, st'') => (Uncaught e, st'')
      end
  | (HTTPException status_code, st') => (HTTPException status_code, st')
  | (Uncaught e, st') => (Uncaught e, st')
  end.

Definition get_session (now_ts : Z) (be : Backend) (request : Request)
    : State → reply SessionResponse * State := λ st,
  match require_session now_ts be request st with
  | (Respond (_, session), st') =>
      (Respond (mkSessionResponse (sd_username session) (sd_created_at session)
                  (sd_last_seen session) (sd_websocket_port session)
                  (idle_timeout cfg) (absolute_timeout cfg)), st')
  | (HTTPException status_code, st') => (HTTPException status_code, st')
  | (Uncaught e, st') => (Uncaught e, st')
  end.

(** The values of the response headers [X-Session-User] and
    [X-Session-Port].  Without the header, [validate] is called with [None]
    and returns [None] at [if not session_id]. *)
Definition internal_validate (now_ts : Z) (be : Backend) (request : Request)
    : State → reply (string * Z) * State := λ st,
  match header_X_Session_Id request with
  | None => (HTTPException HTTP_401_UNAUTHORIZED, st)
  | Some session_id =>
      match SessionStore.validate cfg now_ts be session_id st with
      | (Ok (Some data), st') => (Respond (sd_username data, sd_websocket_port data), st')
      | (Ok None, st') => (HTTPException HTTP_401_UNAUTHORIZED, st')
      | (Raise e, st') => (Uncaught e, st')
      end
  end.

End Gateway.
End Gateway.

(** * Vocabulary of the claims *)

(** Slot [index] is held: a live instance is bound to its display. *)
Definition held (cfg : Config) (st : State) (index : Z) : Prop :=
  ∃ sid inst, _instances st !! sid = Some inst ∧ display inst = base_display cfg + index.

(** Number of slots of the pool that no live instance holds. *)
Definition free_count (cfg : Config) (st : State) : nat :=
  length (filter (λ offset, base_display cfg + offset ∉ used_displays st)
            (range (max_instances cfg))).

(** Distinct live session keys are bound to distinct displays. *)
Definition exclusive (st : State) : Prop :=
  ∀ k1 k2 i1 i2, _instances st !! k1 = Some i1 → _instances st !! k2 = Some i2 →
                 k1 ≠ k2 → display i1 ≠ display i2.

(** All three launch steps succeed / some launch step fails. *)
Definition backend_ok (be : Backend) : Prop :=
  vnc_returncode be = 0 ∧ is_Some (dosbox_launch be) ∧ is_Some (websockify_launch be).

Definition backend_fails (be : Backend) : Prop :=
  vnc_returncode be ≠ 0 ∨ dosbox_launch be = None ∨ websockify_launch be = None.

(** The rows of the table that belong to [username]. *)
Definition rows_of (username : string) (st : State) : gmap string Row :=
  filter (λ kr, col_username kr.2 = username) (sessions st).

(** Calls other than [wait] and [kill]. *)
Definition gentle (c : Call) : Prop :=
  match c with
  | CWait _ _ | CKill _ => False
  | _ => True
  end.

(** The calls made from [st] to [st'] are appended to the log and none of
    them is a [wait] or a [kill]. *)
Definition no_force (st st' : State) : Prop :=
  ∃ new, calls st' = calls st ++ new ∧ Forall gentle new.

(** A call of the session store, with what it draws from its environment. *)
Inductive Op :=
| OpCreate (session_id : string) (now_ts : Z) (be : Backend) (username : string)
| OpValidate (now_ts : Z) (be : Backend) (session_id : string)
| OpDelete (session_id : string).

(** The state after a call, whether it returned or raised. *)
Definition run_op (cfg : Config) (st : State) (op : Op) : State :=
  match op with
  | OpCreate session_id now_ts be username =>
      (SessionStore.create_session cfg session_id now_ts be username st).2
  | OpValidate now_ts be session_id =>
      (SessionStore.validate cfg now_ts be session_id st).2
  | OpDelete session_id => (SessionStore.delete session_id st).2
  end.

Definition run_ops (cfg : Config) (st : State) (ops : list Op) : State :=
  foldl (run_op cfg) st ops.

(** Every row has its live instance, at the display and port of the row. *)
Definition in_sync (st : State) : Prop :=
  ∀ sid row, sessions st !! sid = Some row →
    ∃ inst, _instances st !! sid = Some inst ∧
            col_display row = Some (display inst) ∧
            col_websocket_port row = Some (websocket_port inst).

(** Every live instance sits on a slot of the pool. *)
Definition pooled (cfg : Config) (st : State) : Prop :=
  ∀ sid inst, _instances st !! sid = Some inst →
    ∃ i, 0 ≤ i < max_instances cfg ∧
         display inst = base_display cfg + i ∧
         websocket_port inst = base_websocket_port cfg + i.

(** Distinct keys on distinct displays, every row with its live instance,
    every instance on a slot of the pool. *)
Definition store_inv (cfg : Config) (st : State) : Prop :=
  exclusive st ∧ in_sync st ∧ pooled cfg st.

(** The processes outside [ps] are as they were (same entries of the
    process table), and so are the VNC servers. *)
Definition spares (ps : list nat) (st st' : State) : Prop :=
  (∀ q, q ∉ ps → procs st' !! q = procs st !! q) ∧ vnc st' = vnc st.

(** The user table of the sample requests. *)
Definition users0 : gmap string string :=
  {[ "alice"%string := "wonder"%string; "bob"%string := "builder"%string ]}.

(** ** Sample configurations and states *)

(** Two slots from display 11 and port 7700; idle timeout 10, absolute 100. *)
Definition cfg0 : Config := mkConfig 11 2 7700 10 100.

(** The same with a single slot. *)
Definition cfg1 : Config := mkConfig 11 1 7700 10 100.

(** A freshly started process with an empty database. *)
Definition st0 : State := mkState ∅ ∅ [] ∅ [].

(** All launch steps succeed. *)
Definition be_ok : Backend := mkBackend 0 (Some ExitsOnTerm) (Some ExitsOnTerm).

(** DOSBox starts and ignores SIGTERM; [Popen] of websockify raises. *)
Definition be_ws_fails : Backend := mkBackend 0 (Some IgnoresTerm) None.

(** [vncserver] exits with status 1. *)
Definition be_vnc_fails : Backend := mkBackend 1 (Some ExitsOnTerm) (Some ExitsOnTerm).

(** One live session ["a"] on display 11. *)
Definition st_a : State :=
  mkState {[ "a"%string := mkInstance "a" "alice" 11 7700 [0%nat; 1%nat] ]} ∅
    [mkProc true ExitsOnTerm; mkProc true ExitsOnTerm] {[ 11 ]} [].

(** A freshly started process whose database still holds bob's session
    ["b"], bound to display 11, from the previous run. *)
Definition st_restart : State :=
  mkState ∅ {[ "b"%string := mkRow "bob" (Some 11) (Some 7700) 95 99 ]} [] ∅ [].

(** A row whose display and port are null. *)
Definition st_null : State :=
  mkState ∅ {[ "n"%string := mkRow "carol" None None 95 99 ]} [] ∅ [].

(** Two live sessions; the first process of ["b"] ignores SIGTERM. *)
Definition st_ab : State :=
  mkState {[ "a"%string := mkInstance "a" "alice" 11 7700 [0%nat; 1%nat];
             "b"%string := mkInstance "b" "bob" 12 7701 [2%nat; 3%nat] ]} ∅
    [mkProc true ExitsOnTerm; mkProc true ExitsOnTerm;
     mkProc true IgnoresTerm; mkProc true ExitsOnTerm] {[ 11; 12 ]} [].

(** Carol's session is live and its row is long expired at time 200; the
    first process ignores SIGTERM. *)
Definition st_stale : State :=
  mkState {[ "c"%string := mkInstance "c" "carol" 11 7700 [0%nat; 1%nat] ]}
    {[ "c"%string := mkRow "carol" (Some 11) (Some 7700) 95 99 ]}
    [mkProc true IgnoresTerm; mkProc true ExitsOnTerm] {[ 11 ]} [].

(** * Relations between states *)

(** Every run of [m] relates the state before to the state after by [R],
    whether it returns or raises. *)
Definition steps {A} (R : relation State) (m : M A) : Prop :=
  ∀ st r st', m st = (r, st') → R st st'.

(** [m] returns (never raises). *)
Definition returns {A} (m : M A) : Prop :=
  ∀ st, ∃ a st', m st = (Ok a, st').

(** What the operations can change

    [world_step]: the table is untouched, the process table does not shrink
    and no process is revived.  [os_step]: moreover the registry is
    untouched; this is what a call to a process or to [vncserver] does. *)
Record world_step (st st' : State) : Prop := mk_world_step {
  ws_sessions : sessions st' = sessions st;
  ws_length : (length (procs st) ≤ length (procs st'))%nat;
  ws_running : ∀ q, (q < length (procs st))%nat →
                 is_running st' q = true → is_running st q = true
}.

Record os_step (st st' : State) : Prop := mk_os_step {
  os_instances : _instances st' = _instances st;
  os_world : world_step st st'
}.

(** The state in which [validate] looks the key up: after the sweep. *)
Record swept (cfg : Config) (now : Z) (st st1 : State) : Prop := mk_swept {
  sw_run : SessionStore._cleanup_expired cfg now st = (Ok tt, st1);
  sw_sessions :
    sessions st1 = filter (λ kr, SessionStore.expired cfg now kr.2 ≠ true) (sessions st);
  sw_instances : ∀ k,
    _instances st1 !! k =
    if decide (k ∈ SessionStore.select_ids (SessionStore.expired cfg now) st)
    then None else _instances st !! k
}.

(** The state in which [create_session] provisions: the owner's rows are
    deleted and the sessions they named are stopped. *)
Record evicted (u : string) (st st1 : State) : Prop := mk_evicted {
  ev_run :
    (SessionStore.delete_where (SessionStore.owned_by u);;
     for_each (SessionStore.select_ids (SessionStore.owned_by u) st) stop_session) st
    = (Ok tt, st1);
  ev_sessions : sessions st1 = filter (λ kr, SessionStore.owned_by u kr.2 ≠ true) (sessions st);
  ev_instances : ∀ k,
    _instances st1 !! k =
    if decide (k ∈ SessionStore.select_ids (SessionStore.owned_by u) st)
    then None else _instances st !! k;
  ev_length : (length (procs st) ≤ length (procs st1))%nat;
  ev_exited : ∀ k inst p,
    k ∈ SessionStore.select_ids (SessionStore.owned_by u) st →
    _instances st !! k = Some inst → p ∈ processes inst →
    (p < length (procs st))%nat → is_running st1 p = false
}.

(** * Verification *)

(** ** Reasoning about monadic code *)

Section Steps.
Context (R : relation State) `{!PreOrder R}.

Lemma steps_ret {A} (a : A) : steps R (mret a).
Proof. intros st r st' [= <- <-]. reflexivity. Qed.

Lemma steps_raise {A} e : steps R (@raise A e).
Proof. intros st r st' [= <- <-]. reflexivity. Qed.

Lemma steps_get : steps R get.
Proof. intros st r st' [= <- <-]. reflexivity. Qed.

Lemma steps_modify f : (∀ st, R st (f st)) → steps R (modify f).
Proof. intros Hf st r st' [= <- <-]. apply Hf. Qed.

Lemma steps_bind {A B} (m : M A) (f : A → M B) :
  steps R m → (∀ a, steps R (f a)) → steps R (m ≫= f).
Proof.
  intros Hm Hf st r st'. unfold mbind, M_bind.
  destruct (m st) as [[a|e] st1] eqn:E; intros H.
  - etransitivity; [by eapply Hm | by eapply Hf].
  - injection H as <- <-. by eapply Hm.
Qed.

Lemma steps_try_except {A} (m : M A) (h : exn → M A) :
  steps R m → (∀ e, steps R (h e)) → steps R (try_except m h).
Proof.
  intros Hm Hh st r st'. unfold try_except.
  destruct (m st) as [[a|e] st1] eqn:E; intros H.
  - injection H as <- <-. by eapply Hm.
  - etransitivity; [by eapply Hm | by eapply Hh].
Qed.

Lemma steps_for_each {A} (l : list A) (f : A → M unit) :
  (∀ x, steps R (f x)) → steps R (for_each l f).
Proof.
  intros Hf. induction l as [|x l IH]; simpl.
  - apply steps_ret.
  - apply steps_bind; [apply Hf | intros _; apply IH].
Qed.
End Steps.

(** Unfold one layer of monadic plumbing. *)
Ltac munfold :=
  unfold mbind, M_bind, mret, M_ret, try_except, raise, get, modify in *.

#[global] Instance world_step_preorder : PreOrder world_step.
Proof.
  split.
  - intros st. by split.
  - intros s1 s2 s3 [t1 l1 r1] [t2 l2 r2]. split; try congruence; try lia.
    intros q Hq Hr. apply r1; [done|]. apply r2; [lia|done].
Qed.

#[global] Instance os_step_preorder : PreOrder os_step.
Proof.
  split.
  - intros st. by split.
  - intros s1 s2 s3 [i1 w1] [i2 w2]. split; [congruence | by etransitivity].
Qed.

Lemma steps_weaken {A} (R R' : relation State) (m : M A) :
  (∀ st st', R st st' → R' st st') → steps R m → steps R' m.
Proof. intros HR Hm st r st' E. eapply HR, Hm, E. Qed.

Lemma is_running_alter f p st q :
  is_running (set_procs (alter f p) st) q =
  if decide (p = q) then
    match procs st !! p with Some pr => running (f pr) | None => false end
  else is_running st q.
Proof.
  unfold is_running, set_procs; cbn [procs]. case_decide as E.
  - subst q. rewrite list_lookup_alter_eq. by destruct (procs st !! p).
  - by rewrite list_lookup_alter_ne.
Qed.

Lemma is_running_log c st q : is_running (log c st) q = is_running st q.
Proof. done. Qed.

Lemma os_step_log c st : os_step st (log c st).
Proof. by repeat split. Qed.

Lemma os_step_set_vnc f st : os_step st (set_vnc f st).
Proof. by repeat split. Qed.

Lemma os_step_alter f p st :
  (∀ pr, running (f pr) = true → running pr = true) →
  os_step st (set_procs (alter f p) st).
Proof.
  intros Hf. repeat split; try done.
  - simpl. by rewrite length_alter.
  - intros q _. rewrite is_running_alter. case_decide; [subst q|done].
    unfold is_running. destruct (procs st !! p); [apply Hf|done].
Qed.

Lemma on_sigterm_running pr : running (on_sigterm pr) = true → running pr = true.
Proof. unfold on_sigterm. by destruct (on_term pr). Qed.

Lemma os_terminate p : steps os_step (terminate p).
Proof.
  apply steps_modify. intros st.
  etransitivity; [|apply os_step_log]. apply os_step_alter, on_sigterm_running.
Qed.

Lemma os_kill p : steps os_step (kill p).
Proof.
  apply steps_modify. intros st.
  etransitivity; [|apply os_step_log]. by apply os_step_alter.
Qed.

Lemma os_wait p t : steps os_step (wait p t).
Proof.
  intros st r st'. unfold wait. destruct (is_running st p); intros [= <- <-];
    apply os_step_log.
Qed.

Lemma os_vnc_kill d : steps os_step (vnc_kill d).
Proof.
  apply steps_modify. intros st.
  etransitivity; [|apply os_step_log]. apply os_step_set_vnc.
Qed.

Lemma os_sleep n : steps os_step (sleep n).
Proof. apply steps_modify. intros st. apply os_step_log. Qed.

Lemma os_poll p : steps os_step (poll_is_None p).
Proof. intros st r st' [= <- <-]. reflexivity. Qed.

Lemma os_spawn launch c : steps os_step (_spawn_process launch c).
Proof.
  intros st r st'. unfold _spawn_process. destruct launch as [tr|].
  - intros [= <- <-]. repeat split; try done.
    + simpl. rewrite length_app. lia.
    + intros q Hq. unfold is_running; simpl. by rewrite lookup_app_l.
  - intros [= <- <-]. reflexivity.
Qed.

Lemma os_start_vnc be d : steps os_step (_start_vnc be d).
Proof.
  unfold _start_vnc. apply steps_bind; [apply _ | apply os_vnc_kill | intros _].
  apply steps_bind; [apply _ | | intros _].
  - apply steps_modify. intros st. apply os_step_log.
  - case_decide; [apply steps_raise; apply _|].
    apply steps_modify. intros st. apply os_step_set_vnc.
Qed.

Lemma os_start_dosbox be d : steps os_step (_start_dosbox be d).
Proof. apply os_spawn. Qed.

Lemma os_start_websockify be p d : steps os_step (_start_websockify be p d).
Proof. apply os_spawn. Qed.

Lemma os_terminate_if_running p : steps os_step (terminate_if_running p).
Proof.
  unfold terminate_if_running.
  apply steps_bind; [apply _ | apply os_poll | intros []].
  - apply os_terminate.
  - apply steps_ret; apply _.
Qed.

Lemma os_stop_process p : steps os_step (stop_process p).
Proof.
  unfold stop_process.
  apply steps_bind; [apply _ | apply os_poll | intros []].
  - apply steps_bind; [apply _ | apply os_terminate | intros _].
    apply steps_try_except; [apply _ | apply os_wait | intros e].
    destruct e; try (apply steps_raise; apply _). apply os_kill.
  - apply steps_ret; apply _.
Qed.

Create HintDb steps.
#[global] Hint Resolve os_terminate os_kill os_wait os_vnc_kill os_sleep os_poll
  os_spawn os_start_vnc os_start_dosbox os_start_websockify
  os_terminate_if_running os_stop_process : steps.

Lemma os_world_steps {A} (m : M A) : steps os_step m → steps world_step m.
Proof. apply steps_weaken. by intros st st' []. Qed.

(** Break a goal [steps R m] along the structure of [m]. *)
Ltac steps_tac :=
  repeat first
    [ solve [auto with steps]
    | solve [apply os_world_steps; auto with steps]
    | apply steps_ret; apply _
    | apply steps_raise; apply _
    | apply steps_get; apply _
    | apply steps_bind; [apply _ | | intros ?]
    | apply steps_try_except; [apply _ | | intros ?]
    | apply steps_for_each; [apply _ | intros ?] ].

Lemma world_step_set_instances f st : world_step st (set_instances f st).
Proof. by split. Qed.

Lemma ws_set_instances f : steps world_step (modify (set_instances f)).
Proof. apply steps_modify. intros st. apply world_step_set_instances. Qed.
#[global] Hint Resolve ws_set_instances : steps.

(** *** [stop_session] *)

Lemma stop_process_spec p st :
  ∃ st', stop_process p st = (Ok tt, st') ∧ os_step st st' ∧ is_running st' p = false.
Proof.
  destruct (stop_process p st) as [r st'] eqn:E. exists st'.
  assert (os_step st st') as Hos by (by eapply os_stop_process).
  revert E. unfold stop_process, poll_is_None, terminate, wait, kill. munfold.
  destruct (is_running st p) eqn:Hrun.
  - rewrite is_running_log, is_running_alter, decide_True by done.
    unfold is_running in Hrun. destruct (procs st !! p) as [pr|] eqn:Hp; [|done].
    destruct (running (on_sigterm pr)) eqn:Hterm.
    + intros [= <- <-]. split_and!; [done..|].
      rewrite is_running_log, is_running_alter, decide_True by done.
      by case_match.
    + intros [= <- <-]. split_and!; [done..|].
      by rewrite !is_running_log, is_running_alter, decide_True, Hp.
  - by intros [= <- <-].
Qed.

Lemma stop_processes_spec ps st :
  ∃ st', for_each ps stop_process st = (Ok tt, st') ∧ os_step st st' ∧
         ∀ p, p ∈ ps → (p < length (procs st))%nat → is_running st' p = false.
Proof.
  revert st. induction ps as [|p ps IH]; intros st.
  - exists st. split_and!; [done|reflexivity|]. by intros p ?%elem_of_nil.
  - destruct (stop_process_spec p st) as (st1 & E1 & Hos1 & Hp).
    destruct (IH st1) as (st2 & E2 & Hos2 & Hps). exists st2.
    simpl. munfold. rewrite E1. split; [done|]. split; [by etransitivity|].
    intros q [->|Hq]%elem_of_cons Hlt.
    + apply not_true_is_false. intros Hr.
      apply (ws_running _ _ (os_world _ _ Hos2)) in Hr; [congruence|].
      pose proof (ws_length _ _ (os_world _ _ Hos1)). lia.
    + apply Hps; [done|]. pose proof (ws_length _ _ (os_world _ _ Hos1)). lia.
Qed.

Lemma stop_session_spec sid st :
  ∃ st', stop_session sid st = (Ok tt, st') ∧
         os_step (set_instances (delete sid) st) st' ∧
         ∀ inst p, _instances st !! sid = Some inst → p ∈ processes inst →
                   (p < length (procs st))%nat → is_running st' p = false.
Proof.
  unfold stop_session. munfold. destruct (_instances st !! sid) as [inst|] eqn:Hi.
  - destruct (stop_processes_spec (processes inst) (set_instances (delete sid) st))
      as (st1 & E1 & Hos1 & Hps).
    rewrite E1. eexists. split; [reflexivity|]. split.
    + etransitivity; [exact Hos1|]. by eapply os_vnc_kill.
    + intros inst' p [= <-] Hp Hlt. by apply Hps.
  - eexists. split; [reflexivity|]. split; [reflexivity|]. by intros.
Qed.

(** [stop_session] never raises. *)
Lemma stop_session_returns sid : returns (stop_session sid).
Proof. intros st. destruct (stop_session_spec sid st) as (st' & E & _). eauto. Qed.

Lemma stop_session_instances sid st st' r :
  stop_session sid st = (r, st') → _instances st' = delete sid (_instances st).
Proof.
  intros E. destruct (stop_session_spec sid st) as (st1 & E1 & Hos & _).
  rewrite E in E1. injection E1 as _ <-. by rewrite (os_instances _ _ Hos).
Qed.

Lemma ws_stop_session sid : steps world_step (stop_session sid).
Proof.
  intros st r st' E. destruct (stop_session_spec sid st) as (st1 & E1 & Hos & _).
  rewrite E in E1. injection E1 as _ <-.
  etransitivity; [apply (world_step_set_instances (delete sid))|]. by destruct Hos.
Qed.
#[global] Hint Resolve ws_stop_session : steps.

Lemma world_step_exited st st' p :
  world_step st st' → (p < length (procs st))%nat →
  is_running st p = false → is_running st' p = false.
Proof.
  intros Hw Hlt Hp. apply not_true_is_false. intros Hr.
  apply (ws_running _ _ Hw) in Hr; [congruence|done].
Qed.

(** Stopping a list of sessions removes exactly those keys. *)
Lemma stop_sessions_spec l st :
  ∃ st', for_each l stop_session st = (Ok tt, st') ∧
         world_step st st' ∧
         (∀ k, _instances st' !! k = if decide (k ∈ l) then None else _instances st !! k) ∧
         (∀ k inst p, k ∈ l → _instances st !! k = Some inst → p ∈ processes inst →
                      (p < length (procs st))%nat → is_running st' p = false).
Proof.
  revert st. induction l as [|k0 l IH]; intros st.
  - exists st. split_and!; [done|reflexivity| |].
    + intros k. by rewrite decide_False by apply not_elem_of_nil.
    + by intros k inst p ?%elem_of_nil.
  - destruct (stop_session_spec k0 st) as (st1 & E1 & Hos1 & Hp1).
    assert (world_step st st1) as Hw1 by (by eapply ws_stop_session).
    assert (_instances st1 = delete k0 (_instances st)) as Hi1
      by (by eapply stop_session_instances).
    destruct (IH st1) as (st2 & E2 & Hw2 & Hi2 & Hp2). exists st2.
    simpl. munfold. rewrite E1. split_and!; [done|by etransitivity| |].
    + intros k. rewrite Hi2, Hi1. destruct (decide (k = k0)) as [->|Hne].
      * rewrite lookup_delete_eq, (decide_True (P := k0 ∈ k0 :: l)) by (apply elem_of_cons; by left).
        by case_decide.
      * rewrite lookup_delete_ne by done.
        rewrite (decide_ext (k ∈ k0 :: l) (k ∈ l)); [done|].
        rewrite elem_of_cons. intuition congruence.
    + intros k inst p Hk Hinst Hp Hlt.
      pose proof (ws_length _ _ Hw1).
      destruct (decide (k = k0)) as [->|Hne].
      * eapply world_step_exited; [done|lia|]. by eapply Hp1.
      * apply (Hp2 k inst); [|by rewrite Hi1, lookup_delete_ne|done|lia].
        apply elem_of_cons in Hk. by destruct Hk.
Qed.

(** *** [_allocate_slot] *)

Lemma elem_of_used_displays st d :
  d ∈ used_displays st ↔ ∃ sid inst, _instances st !! sid = Some inst ∧ display inst = d.
Proof.
  unfold used_displays. rewrite elem_of_map_img. split.
  - intros (sid & H). rewrite lookup_fmap in H.
    destruct (_instances st !! sid) as [inst|] eqn:E; simplify_eq/=. eauto.
  - intros (sid & inst & E & <-). exists sid. by rewrite lookup_fmap, E.
Qed.

Section Allocate.
Variable cfg : Config.

(** The loop over [range(a, a + n)] returns the first offset whose display
    is unused, and nothing if there is none. *)
Lemma first_free_seq used a n :
  match first_free cfg used (Z.of_nat <$> seq a n) with
  | Some (d, p) =>
      ∃ i, (a ≤ i < a + n)%nat ∧
           d = base_display cfg + Z.of_nat i ∧
           p = base_websocket_port cfg + Z.of_nat i ∧
           (d ∉ used) ∧
           ∀ j, (a ≤ j < i)%nat → base_display cfg + Z.of_nat j ∈ used
  | None => ∀ j, (a ≤ j < a + n)%nat → base_display cfg + Z.of_nat j ∈ used
  end.
Proof.
  revert a. induction n as [|n IH]; intros a; simpl.
  - intros j ?. lia.
  - case_decide as Hfree.
    + exists a. split_and!; try done; [lia..|]. intros j ?. lia.
    + specialize (IH (S a)). destruct (first_free _ _ _) as [[d p]|].
      * destruct IH as (i & Hi & -> & -> & Hd & Hlow). exists i.
        split_and!; try done; [lia..|]. intros j Hj.
        destruct (decide (j = a)) as [->|]; [done|apply Hlow; lia].
      * intros j Hj. destruct (decide (j = a)) as [->|]; [done|apply IH; lia].
Qed.

Lemma first_free_range used :
  match first_free cfg used (range (max_instances cfg)) with
  | Some (d, p) =>
      ∃ i, 0 ≤ i < max_instances cfg ∧
           d = base_display cfg + i ∧ p = base_websocket_port cfg + i ∧
           (d ∉ used) ∧ ∀ j, 0 ≤ j < i → base_display cfg + j ∈ used
  | None => ∀ j, 0 ≤ j < max_instances cfg → base_display cfg + j ∈ used
  end.
Proof.
  unfold range. pose proof (first_free_seq used 0 (Z.to_nat (max_instances cfg))) as H.
  destruct (first_free _ _ _) as [[d p]|].
  - destruct H as (i & Hi & -> & -> & Hd & Hlow). exists (Z.of_nat i).
    split_and!; try done; [lia..|]. intros j Hj.
    specialize (Hlow (Z.to_nat j)). rewrite Z2Nat.id in Hlow by lia. apply Hlow. lia.
  - intros j Hj. specialize (H (Z.to_nat j)). rewrite Z2Nat.id in H by lia.
    apply H. lia.
Qed.
End Allocate.

(** *** [start_session] and [ensure_session] *)

Lemma ws_start_session cfg be sid u : steps world_step (start_session cfg be sid u).
Proof.
  unfold start_session. steps_tac. case_match; steps_tac.
  - unfold _allocate_slot. steps_tac. case_match; steps_tac.
  - destruct a0 as [d p]. steps_tac.
Qed.

Lemma ws_ensure_session be sid u d p : steps world_step (ensure_session be sid u d p).
Proof.
  unfold ensure_session. steps_tac. case_match; steps_tac.
Qed.
#[global] Hint Resolve ws_start_session ws_ensure_session : steps.

Ltac launch_cases be :=
  unfold _start_vnc, _start_dosbox, _start_websockify, _spawn_process, vnc_kill,
    sleep, terminate_if_running, poll_is_None, terminate;
  munfold; simpl;
  destruct (decide (vnc_returncode be ≠ 0)) as [Hrc|Hrc%dec_stable];
  [|destruct (dosbox_launch be) as [tr1|] eqn:Hdos;
    [destruct (websockify_launch be) as [tr2|] eqn:Hws|]]; simpl; munfold.

(** The outcomes of [ensure_session]. *)
Lemma ensure_session_spec be sid u d p st r st' :
  ensure_session be sid u d p st = (r, st') →
  match r with
  | Ok _ =>
      (is_Some (_instances st !! sid) ∧ st' = st) ∨
      (_instances st !! sid = None ∧ backend_ok be ∧
       ∃ ps, _instances st' = <[sid := mkInstance sid u d p ps]> (_instances st))
  | Raise e =>
      _instances st !! sid = None ∧ _instances st' = _instances st ∧
      backend_fails be ∧ ∃ cause, e = FailedToResume cause
  end.
Proof.
  unfold ensure_session. munfold. destruct (_instances st !! sid) as [inst|] eqn:Hi.
  - intros [= <- <-]. left. eauto.
  - launch_cases be.
    + intros [= <- <-]. unfold backend_fails. eauto 10.
    + intros [= <- <-]. right. unfold backend_ok. eauto 10.
    + destruct (is_running _ _); simpl;
        intros [= <- <-]; unfold backend_fails; eauto 10.
    + intros [= <- <-]. unfold backend_fails. eauto 10.
Qed.

(** What a launch that succeeds leaves behind. *)
Lemma ensure_session_launch be sid u d p st st' :
  _instances st !! sid = None →
  ensure_session be sid u d p st = (Ok tt, st') →
  ∃ tr1 tr2,
    dosbox_launch be = Some tr1 ∧ websockify_launch be = Some tr2 ∧
    _instances st' =
      <[sid := mkInstance sid u d p [length (procs st); S (length (procs st))]]>
        (_instances st) ∧
    sessions st' = sessions st ∧
    procs st' = procs st ++ [mkProc true tr1; mkProc true tr2] ∧
    vnc st' = {[d]} ∪ vnc st ∖ {[d]} ∧
    calls st' = calls st ++
      [CVncKill d; CVncStart d; CSleep 1; CSpawnDosbox d (length (procs st));
       CSpawnWebsockify p d (S (length (procs st)))].
Proof.
  intros Hi. unfold ensure_session. munfold. rewrite Hi. launch_cases be; try done.
  - intros [= <-]. exists tr1, tr2. simpl.
    rewrite length_app, Nat.add_1_r, <- !app_assoc. by split_and!.
  - by destruct (is_running _ _).
Qed.

(** A launch step that fails makes [ensure_session] raise: for a key that
    is not live and a backend with a failing step, the call raises the
    failed-to-resume error, whose cause is the error of the first step that
    failed. *)
Lemma ensure_session_fails be sid u d p st :
  _instances st !! sid = None → backend_fails be →
  ∃ st', ensure_session be sid u d p st =
         (Raise (FailedToResume
                   (if decide (vnc_returncode be ≠ 0) then VncStartFailed d else OSError)),
          st').
Proof.
  intros Hi Hbe. unfold ensure_session. munfold. rewrite Hi. launch_cases be.
  - eauto.
  - destruct Hbe as [?|[?|?]]; congruence.
  - destruct (is_running _ _); simpl; eauto.
  - eauto.
Qed.

(** Once the slot is chosen, [start_session] runs the launch steps and the
    rollback of [ensure_session] at that slot: the final states agree and
    only the wording of the error differs. *)
Lemma start_session_as_ensure cfg be sid u st d p :
  _instances st !! sid = None →
  first_free cfg (used_displays st) (range (max_instances cfg)) = Some (d, p) →
  start_session cfg be sid u st =
  match ensure_session be sid u d p st with
  | (Ok _, st') => (Ok (d, p), st')
  | (Raise (FailedToResume cause), st') => (Raise (FailedToProvision cause), st')
  | other => (Raise OSError, other.2)
  end.
Proof.
  intros Hi Hff. unfold start_session, ensure_session, _allocate_slot. munfold.
  rewrite Hi, Hff. launch_cases be; try done.
  by destruct (is_running _ _).
Qed.

(** The outcomes of [start_session]. *)
Lemma start_session_spec cfg be sid u st r st' :
  start_session cfg be sid u st = (r, st') →
  match r with
  | Ok (d, p) =>
      (∃ inst, _instances st !! sid = Some inst ∧
               d = display inst ∧ p = websocket_port inst ∧ st' = st) ∨
      (_instances st !! sid = None ∧
       first_free cfg (used_displays st) (range (max_instances cfg)) = Some (d, p) ∧
       backend_ok be ∧
       ∃ ps, _instances st' = <[sid := mkInstance sid u d p ps]> (_instances st))
  | Raise e =>
      _instances st !! sid = None ∧ _instances st' = _instances st ∧
      ((e = NoFreeSlots ∧ st' = st ∧
        first_free cfg (used_displays st) (range (max_instances cfg)) = None) ∨
       (backend_fails be ∧ ∃ cause, e = FailedToProvision cause))
  end.
Proof.
  destruct (_instances st !! sid) as [inst|] eqn:Hi.
  { unfold start_session. munfold. rewrite Hi. intros [= <- <-]. left. eauto. }
  destruct (first_free cfg (used_displays st) (range (max_instances cfg)))
    as [[d p]|] eqn:Hff.
  - rewrite (start_session_as_ensure _ _ _ _ _ d p) by done.
    destruct (ensure_session be sid u d p st) as [r1 st1] eqn:E.
    apply ensure_session_spec in E. destruct r1 as [[]|e].
    + intros [= <- <-]. right.
      destruct E as [[[? ?] _]|(_ & ? & ?)]; [congruence | by split_and!].
    + destruct E as (_ & ? & ? & c & ->). intros [= <- <-]. eauto 10.
  - unfold start_session, _allocate_slot. munfold. rewrite Hi, Hff.
    intros [= <- <-]. eauto 10.
Qed.

Lemma start_session_sessions cfg be sid u st r st' :
  start_session cfg be sid u st = (r, st') → sessions st' = sessions st.
Proof. intros E. by eapply ws_sessions, ws_start_session. Qed.

Lemma ensure_session_sessions be sid u d p st r st' :
  ensure_session be sid u d p st = (r, st') → sessions st' = sessions st.
Proof. intros E. by eapply ws_sessions, ws_ensure_session. Qed.

(** With a healthy backend [ensure_session] returns. *)
Lemma ensure_session_ok be sid u d p st :
  backend_ok be → ∃ st', ensure_session be sid u d p st = (Ok tt, st').
Proof.
  intros (Hrc & [tr1 H1] & [tr2 H2]).
  destruct (ensure_session be sid u d p st) as [[[]|e] st'] eqn:E; [eauto|].
  apply ensure_session_spec in E. destruct E as (_ & _ & [?|[?|?]] & _); congruence.
Qed.

(** ** Slot allocation *)

Lemma held_used cfg st i :
  held cfg st i ↔ base_display cfg + i ∈ used_displays st.
Proof. unfold held. by rewrite elem_of_used_displays. Qed.

#[global] Instance held_dec cfg st i : Decision (held cfg st i).
Proof.
  refine (cast_if (decide (base_display cfg + i ∈ used_displays st)));
    by rewrite held_used.
Defined.

(** C6. Slot allocation rule: while some index below [max_instances] is not
    held by a live instance, [_allocate_slot] returns the lowest such index
    as the pair (base display + index, base port + index); when all indices
    are held it raises the no-free-slots error. *)
Theorem allocate_slot_rule cfg st :
  ((∃ i, 0 ≤ i < max_instances cfg ∧ ¬ held cfg st i) →
   ∃ index, 0 ≤ index < max_instances cfg ∧ ¬ held cfg st index ∧
            (∀ j, 0 ≤ j < index → held cfg st j) ∧
            _allocate_slot cfg st =
              (Ok (base_display cfg + index, base_websocket_port cfg + index), st)) ∧
  ((∀ i, 0 ≤ i < max_instances cfg → held cfg st i) →
   _allocate_slot cfg st = (Raise NoFreeSlots, st)).
Proof.
  pose proof (first_free_range cfg (used_displays st)) as H.
  unfold _allocate_slot. munfold.
  destruct (first_free _ _ _) as [[d p]|]; split.
  - intros _. destruct H as (i & Hi & -> & -> & Hd & Hlow). exists i.
    split_and!; try done; [lia.. | by rewrite held_used |].
    intros j Hj. by apply held_used, Hlow.
  - intros Hall. destruct H as (i & Hi & -> & _ & Hd & _).
    destruct Hd. by apply held_used, Hall.
  - intros (i & Hi & Hfree). destruct Hfree. by apply held_used, H.
  - done.
Qed.

(** With one session on display 11: two slots give (12, 7701), one slot gives
    no free slot. *)
Lemma allocate_slot_rule_witness :
  (∃ index, 0 ≤ index < max_instances cfg0 ∧ ¬ held cfg0 st_a index ∧
            (∀ j, 0 ≤ j < index → held cfg0 st_a j) ∧
            _allocate_slot cfg0 st_a =
              (Ok (base_display cfg0 + index, base_websocket_port cfg0 + index), st_a)) ∧
  _allocate_slot cfg1 st_a = (Raise NoFreeSlots, st_a).
Proof.
  split.
  - apply (proj1 (allocate_slot_rule cfg0 st_a)). exists 1.
    split; [simpl; lia | by apply (bool_decide_unpack _)].
  - apply (proj2 (allocate_slot_rule cfg1 st_a)). intros i Hi. simpl in Hi.
    assert (i = 0) as -> by lia. by apply (bool_decide_unpack _).
Defined.

(** ** Slot exclusivity *)

Lemma exclusive_delete sid st st' :
  _instances st' = delete sid (_instances st) → exclusive st → exclusive st'.
Proof.
  intros Hi Hex k1 k2 i1 i2. rewrite Hi.
  intros [_ H1]%lookup_delete_Some [_ H2]%lookup_delete_Some. by apply Hex.
Qed.

Lemma exclusive_insert sid inst st st' :
  _instances st' = <[sid := inst]> (_instances st) →
  display inst ∉ used_displays st → exclusive st → exclusive st'.
Proof.
  intros Hi Hfree Hex k1 k2 i1 i2. rewrite Hi.
  intros [[-> <-]|[? H1]]%lookup_insert_Some [[-> <-]|[? H2]]%lookup_insert_Some Hne;
    try done.
  - intros Heq. apply Hfree, elem_of_used_displays. eauto.
  - intros Heq. apply Hfree, elem_of_used_displays. eauto.
  - by eapply Hex.
Qed.

(** [stop_session] keeps distinct sessions on distinct displays. *)
Lemma stop_session_exclusive sid st r st' :
  stop_session sid st = (r, st') → exclusive st → exclusive st'.
Proof. intros E. eapply exclusive_delete. by eapply stop_session_instances. Qed.

(** So does [start_session], which picks a display no live instance uses. *)
Lemma start_session_exclusive cfg be sid u st r st' :
  start_session cfg be sid u st = (r, st') → exclusive st → exclusive st'.
Proof.
  intros E Hex. apply start_session_spec in E. destruct r as [[d p]|e].
  - destruct E as [(inst & _ & _ & _ & ->)|(Hi & Hff & _ & ps & Hi')]; [done|].
    eapply exclusive_insert; [done| |done]. simpl.
    pose proof (first_free_range cfg (used_displays st)) as H. rewrite Hff in H.
    by destruct H as (i & _ & -> & _ & Hd & _).
  - destruct E as (_ & Hi & _). intros k1 k2 i1 i2. rewrite Hi. apply Hex.
Qed.

(** [ensure_session] does when the display it is given is not in use. *)
Lemma ensure_session_exclusive be sid u d p st r st' :
  ensure_session be sid u d p st = (r, st') →
  d ∉ used_displays st → exclusive st → exclusive st'.
Proof.
  intros E Hd Hex. apply ensure_session_spec in E. destruct r as [[]|e].
  - destruct E as [[_ ->]|(_ & _ & ps & Hi')]; [done|].
    by eapply exclusive_insert.
  - destruct E as (_ & Hi & _). intros k1 k2 i1 i2. rewrite Hi. apply Hex.
Qed.

(** ** The table *)

Lemma elem_of_select_ids P st k :
  k ∈ SessionStore.select_ids P st ↔ ∃ r, sessions st !! k = Some r ∧ P r = true.
Proof.
  unfold SessionStore.select_ids. rewrite list_elem_of_fmap. split.
  - intros ([k' r] & -> & H%elem_of_map_to_list).
    apply map_lookup_filter_Some in H as [? ?]. eauto.
  - intros (r & Hk & HP). exists (k, r). split; [done|].
    apply elem_of_map_to_list, map_lookup_filter_Some. eauto.
Qed.

(** A batch delete followed by stopping a list of sessions: the rows that
    satisfy [P] are gone, the listed keys are out of the registry, their
    processes have exited, and nothing else is touched. *)
Lemma delete_then_stop P l st :
  ∃ st', (SessionStore.delete_where P;; for_each l stop_session) st = (Ok tt, st') ∧
         sessions st' = filter (λ kr, P kr.2 ≠ true) (sessions st) ∧
         (∀ k, _instances st' !! k = if decide (k ∈ l) then None else _instances st !! k) ∧
         (length (procs st) ≤ length (procs st'))%nat ∧
         (∀ k inst p, k ∈ l → _instances st !! k = Some inst → p ∈ processes inst →
                      (p < length (procs st))%nat → is_running st' p = false).
Proof.
  destruct (stop_sessions_spec l (set_sessions (filter (λ kr, P kr.2 ≠ true)) st))
    as (st' & E & Hw & Hi & Hp).
  exists st'. unfold SessionStore.delete_where. munfold. rewrite E.
  split_and!; try done.
  - by rewrite (ws_sessions _ _ Hw).
  - apply (ws_length _ _ Hw).
Qed.

Lemma cleanup_expired_spec cfg now st :
  ∃ st', SessionStore._cleanup_expired cfg now st = (Ok tt, st') ∧
         sessions st' = filter (λ kr, SessionStore.expired cfg now kr.2 ≠ true) (sessions st) ∧
         (∀ k, _instances st' !! k =
               if decide (k ∈ SessionStore.select_ids (SessionStore.expired cfg now) st)
               then None else _instances st !! k).
Proof.
  destruct (delete_then_stop (SessionStore.expired cfg now)
              (SessionStore.select_ids (SessionStore.expired cfg now) st) st)
    as (st' & E & Hs & Hi & _).
  exists st'. split_and!; try done.
Qed.

Lemma owned_by_true u r : SessionStore.owned_by u r = true ↔ col_username r = u.
Proof. unfold SessionStore.owned_by. by rewrite bool_decide_eq_true. Qed.

(** ** The shape of [validate] and [create_session] *)

Lemma validate_unfold cfg now be sid st :
  sid ≠ ""%string →
  ∃ st1, swept cfg now st st1 ∧
    SessionStore.validate cfg now be sid st =
    match sessions st1 !! sid with
    | None => (Ok None, st1)
    | Some row =>
        let st2 := set_sessions (alter (SessionStore.set_last_seen now) sid) st1 in
        match col_display row, col_websocket_port row with
        | Some d, Some p =>
            match ensure_session be sid (col_username row) d p st2 with
            | (Ok _, st3) =>
                (Ok (Some (mkSessionData (col_username row) (col_created_at row)
                             (col_last_seen row) d p)), st3)
            | (Raise e, st3) => (Raise e, st3)
            end
        | _, _ => (Ok None, st2)
        end
    end.
Proof.
  intros Hsid. destruct (cleanup_expired_spec cfg now st) as (st1 & E & Hs & Hi).
  exists st1. split; [by split|].
  unfold SessionStore.validate. rewrite decide_False by done. munfold. rewrite E.
  destruct (sessions st1 !! sid) as [row|]; [|done]. simpl.
  by destruct (col_display row), (col_websocket_port row).
Qed.

Lemma create_session_unfold cfg sid now be u st :
  ∃ st1, evicted u st st1 ∧
    SessionStore.create_session cfg sid now be u st =
    match start_session cfg be sid u st1 with
    | (Raise e, st2) => (Raise e, st2)
    | (Ok (d, p), st2) =>
        match sessions st2 !! sid with
        | Some _ => (Raise IntegrityError, st2)
        | None =>
            (Ok (mkSessionInfo sid now d p),
             set_sessions <[sid := mkRow u (Some d) (Some p) now now]> st2)
        end
    end.
Proof.
  destruct (delete_then_stop (SessionStore.owned_by u)
              (SessionStore.select_ids (SessionStore.owned_by u) st) st)
    as (st1 & E & Hs & Hi & Hl & Hp).
  exists st1. split; [by split|].
  unfold SessionStore.create_session, SessionStore.insert_row.
  revert E. unfold SessionStore.delete_where. munfold. intros E.
  destruct (for_each _ _ _) as [r0 st0]. injection E as -> ->.
  destruct (start_session cfg be sid u st1) as [[[d p]|e] st2]; [|done].
  by destruct (sessions st2 !! sid).
Qed.

Lemma swept_lookup cfg now st st1 k :
  swept cfg now st st1 →
  sessions st1 !! k =
  match sessions st !! k with
  | Some row => if SessionStore.expired cfg now row then None else Some row
  | None => None
  end.
Proof.
  intros [_ Hs _]. rewrite Hs, map_lookup_filter.
  destruct (sessions st !! k) as [row|]; [|done]. simpl.
  destruct (SessionStore.expired cfg now row); by simplify_option_eq.
Qed.

(** The sweep leaves the registry entry of a key with a live row alone. *)
Lemma swept_instance cfg now st st1 k row :
  swept cfg now st st1 → sessions st1 !! k = Some row →
  _instances st1 !! k = _instances st !! k.
Proof.
  intros Hsw Hk. rewrite (sw_instances _ _ _ _ Hsw). case_decide as Hstale; [|done].
  apply elem_of_select_ids in Hstale as (r & Hr & Hexp).
  rewrite (swept_lookup _ _ _ _ _ Hsw), Hr, Hexp in Hk. done.
Qed.

Lemma validate_empty cfg now be st :
  SessionStore.validate cfg now be "" st = (Ok None, st).
Proof. done. Qed.

(** ** Outcomes of [validate] *)

(** C9. Absent outcomes of [validate]: the result is [None] when the key is
    empty, when no row has the key, when the row with the key is removed by
    the sweep of this call, and when the row's display or port is null. *)
Theorem validate_absent cfg now be sid st :
  (sid = ""%string → SessionStore.validate cfg now be sid st = (Ok None, st)) ∧
  (sessions st !! sid = None → (SessionStore.validate cfg now be sid st).1 = Ok None) ∧
  (∀ row, sessions st !! sid = Some row → SessionStore.expired cfg now row = true →
          (SessionStore.validate cfg now be sid st).1 = Ok None) ∧
  (∀ row, sessions st !! sid = Some row →
          col_display row = None ∨ col_websocket_port row = None →
          (SessionStore.validate cfg now be sid st).1 = Ok None).
Proof.
  split; [intros ->; apply validate_empty|].
  destruct (decide (sid = ""%string)) as [->|Hsid].
  { rewrite validate_empty. by split_and!. }
  destruct (validate_unfold cfg now be sid st Hsid) as (st1 & Hsw & ->).
  rewrite (swept_lookup _ _ _ _ sid Hsw). split_and!.
  - by intros ->.
  - by intros row -> ->.
  - intros row -> Hnull. destruct (SessionStore.expired cfg now row); [done|].
    simpl. by destruct Hnull as [-> | ->], (col_display row).
Qed.

(** The four absent outcomes on sample states. *)
Lemma validate_absent_witness :
  SessionStore.validate cfg0 101 be_ok "" st_restart = (Ok None, st_restart) ∧
  (SessionStore.validate cfg0 101 be_ok "zzz" st_restart).1 = Ok None ∧
  (SessionStore.validate cfg0 110 be_ok "b" st_restart).1 = Ok None ∧
  (SessionStore.validate cfg0 101 be_ok "n" st_null).1 = Ok None.
Proof.
  split_and!.
  - by apply (proj1 (validate_absent cfg0 101 be_ok "" st_restart)).
  - by apply (proj1 (proj2 (validate_absent cfg0 101 be_ok "zzz" st_restart))).
  - by apply (proj1 (proj2 (proj2 (validate_absent cfg0 110 be_ok "b" st_restart)))
                (mkRow "bob" (Some 11) (Some 7700) 95 99)).
  - apply (proj2 (proj2 (proj2 (validate_absent cfg0 101 be_ok "n" st_null)))
             (mkRow "carol" None None 95 99)); [done | by left].
Defined.

(** What a successful [validate] has done. *)
Lemma validate_some_inv cfg now be sid st data st' :
  SessionStore.validate cfg now be sid st = (Ok (Some data), st') →
  ∃ row st1,
    sessions st !! sid = Some row ∧ SessionStore.expired cfg now row = false ∧
    col_display row = Some (sd_display data) ∧
    col_websocket_port row = Some (sd_websocket_port data) ∧
    swept cfg now st st1 ∧
    match _instances st !! sid with
    | None =>
        ∃ ps, _instances st' !! sid =
              Some (mkInstance sid (col_username row) (sd_display data)
                      (sd_websocket_port data) ps)
    | Some inst =>
        st' = set_sessions (alter (SessionStore.set_last_seen now) sid) st1 ∧
        _instances st' !! sid = Some inst
    end.
Proof.
  destruct (decide (sid = ""%string)) as [->|Hsid]; [by rewrite validate_empty|].
  destruct (validate_unfold cfg now be sid st Hsid) as (st1 & Hsw & ->).
  destruct (sessions st1 !! sid) as [row|] eqn:Hrow; [|done].
  pose proof (swept_instance _ _ _ _ _ _ Hsw Hrow) as Hinst.
  rewrite (swept_lookup _ _ _ _ _ Hsw) in Hrow.
  destruct (sessions st !! sid) as [row'|]; [|done].
  destruct (SessionStore.expired cfg now row') eqn:Hexp; [done|].
  injection Hrow as ->. simpl.
  destruct (col_display row) as [d|] eqn:Hd; [|done].
  destruct (col_websocket_port row) as [p|] eqn:Hp; [|done].
  destruct (ensure_session _ _ _ _ _ _) as [[[]|e] st3] eqn:E; [|done].
  intros [= <- <-]. simpl. exists row, st1. split_and!; try done.
  apply ensure_session_spec in E. simpl in E. rewrite Hinst in E.
  destruct E as [[[inst Hi] ->]|(Hi & _ & ps & Hi')]; rewrite Hi.
  - simpl. by rewrite Hinst.
  - exists ps. by rewrite Hi', lookup_insert_eq.
Qed.

(** [ensure_session] on a live key does nothing. *)
Lemma ensure_session_live be sid u d p st :
  is_Some (_instances st !! sid) → ensure_session be sid u d p st = (Ok tt, st).
Proof. intros [inst Hi]. unfold ensure_session. munfold. by rewrite Hi. Qed.

(** What a successful [validate] of a key that is not live has done: after
    the sweep and the update of [last_seen] it has run the launch steps at
    the display and port of the row, and registered the key with the two
    handles. *)
Lemma validate_resume_inv cfg now be sid st data st' :
  SessionStore.validate cfg now be sid st = (Ok (Some data), st') →
  _instances st !! sid = None →
  ∃ row st1,
    sessions st !! sid = Some row ∧ SessionStore.expired cfg now row = false ∧
    col_display row = Some (sd_display data) ∧
    col_websocket_port row = Some (sd_websocket_port data) ∧
    swept cfg now st st1 ∧
    backend_ok be ∧
    _instances st' =
      <[sid := mkInstance sid (col_username row) (sd_display data)
                 (sd_websocket_port data)
                 [length (procs st1); S (length (procs st1))]]> (_instances st1) ∧
    sessions st' = alter (SessionStore.set_last_seen now) sid (sessions st1) ∧
    calls st' = calls st1 ++
      [CVncKill (sd_display data); CVncStart (sd_display data); CSleep 1;
       CSpawnDosbox (sd_display data) (length (procs st1));
       CSpawnWebsockify (sd_websocket_port data) (sd_display data)
         (S (length (procs st1)))].
Proof.
  intros E Hdead.
  assert (sid ≠ ""%string) as Hsid by (intros ->; by rewrite validate_empty in E).
  destruct (validate_unfold cfg now be sid st Hsid) as (st1 & Hsw & Hv).
  rewrite Hv in E. clear Hv.
  destruct (sessions st1 !! sid) as [row|] eqn:Hrow; [|done].
  pose proof (swept_instance _ _ _ _ _ _ Hsw Hrow) as Hinst.
  rewrite (swept_lookup _ _ _ _ _ Hsw) in Hrow.
  destruct (sessions st !! sid) as [row'|]; [|done].
  destruct (SessionStore.expired cfg now row') eqn:Hexp; [done|].
  injection Hrow as ->. simpl in E.
  destruct (col_display row) as [d|] eqn:Hd; [|done].
  destruct (col_websocket_port row) as [p|] eqn:Hp; [|done].
  destruct (ensure_session _ _ _ _ _ _) as [[[]|e] st3] eqn:Hens; [|done].
  injection E as <- <-. simpl.
  assert (backend_ok be) as Hbe.
  { apply ensure_session_spec in Hens. simpl in Hens. rewrite Hinst, Hdead in Hens.
    destruct Hens as [[[? ?] _]|(_ & ? & _)]; by simplify_eq. }
  apply ensure_session_launch in Hens
    as (tr1 & tr2 & _ & _ & Hi & Hs & _ & _ & Hc);
    [|simpl; by rewrite Hinst].
  exists row, st1. by split_and!.
Qed.

(** C5. Resume at the recorded slot: when [validate] succeeds for a key
    that is not live, it has run, after the sweep, the launch steps at the
    display and port of the key's row: the VNC server is stopped and started
    on that display, and after a pause of one second DOSBox is started on
    that display and websockify on that port and display, each step having
    succeeded; the key is then live at that display and port with the two
    new processes.  When the key is live, [ensure_session] changes nothing,
    and [validate] ends in the state reached by the sweep and the update of
    [last_seen]. *)
Theorem validate_resumes_at_recorded_slot cfg now be sid st data st' :
  SessionStore.validate cfg now be sid st = (Ok (Some data), st') →
  (∃ row,
     sessions st !! sid = Some row ∧
     col_display row = Some (sd_display data) ∧
     col_websocket_port row = Some (sd_websocket_port data) ∧
     match _instances st !! sid with
     | None =>
         ∃ st1,
           SessionStore._cleanup_expired cfg now st = (Ok tt, st1) ∧
           backend_ok be ∧
           calls st' = calls st1 ++
             [CVncKill (sd_display data); CVncStart (sd_display data); CSleep 1;
              CSpawnDosbox (sd_display data) (length (procs st1));
              CSpawnWebsockify (sd_websocket_port data) (sd_display data)
                (S (length (procs st1)))] ∧
           _instances st' !! sid =
             Some (mkInstance sid (col_username row) (sd_display data)
                     (sd_websocket_port data)
                     [length (procs st1); S (length (procs st1))]) ∧
           (∀ k, k ≠ sid → _instances st' !! k = _instances st1 !! k)
     | Some inst =>
         _instances st' !! sid = Some inst ∧
         ∃ st1, SessionStore._cleanup_expired cfg now st = (Ok tt, st1) ∧
                st' = set_sessions (alter (SessionStore.set_last_seen now) sid) st1
     end) ∧
  (∀ u d p s, is_Some (_instances s !! sid) → ensure_session be sid u d p s = (Ok tt, s)).
Proof.
  intros E. split; [|intros; by apply ensure_session_live].
  destruct (_instances st !! sid) as [inst|] eqn:Hl.
  - apply validate_some_inv in E as (row & st1 & Hrow & _ & Hd & Hp & Hsw & H).
    rewrite Hl in H. destruct H as [-> Hi].
    exists row. split_and!; try done. exists st1. split; [apply Hsw|done].
  - apply validate_resume_inv in E
      as (row & st1 & Hrow & _ & Hd & Hp & Hsw & Hbe & Hi & _ & Hc); [|done].
    exists row. split_and!; try done. exists st1.
    split_and!; [apply Hsw | done | done | by rewrite Hi, lookup_insert_eq |].
    intros k Hk. by rewrite Hi, lookup_insert_ne.
Qed.

(** After a restart, [validate] of bob's key brings it back on display 11
    and port 7700: the log of the call is the launch at that slot. *)
Lemma validate_resumes_at_recorded_slot_witness :
  SessionStore.validate cfg0 101 be_ok "b" st_restart =
    (Ok (Some (mkSessionData "bob" 95 99 11 7700)),
     (SessionStore.validate cfg0 101 be_ok "b" st_restart).2) ∧
  calls (SessionStore.validate cfg0 101 be_ok "b" st_restart).2 =
    [CVncKill 11; CVncStart 11; CSleep 1; CSpawnDosbox 11 0%nat;
     CSpawnWebsockify 7700 11 1%nat] ∧
  _instances (SessionStore.validate cfg0 101 be_ok "b" st_restart).2 !! "b"%string
    = Some (mkInstance "b" "bob" 11 7700 [0%nat; 1%nat]).
Proof.
  assert (SessionStore.validate cfg0 101 be_ok "b" st_restart =
          (Ok (Some (mkSessionData "bob" 95 99 11 7700)),
           (SessionStore.validate cfg0 101 be_ok "b" st_restart).2)) as E
    by (vm_compute; reflexivity).
  split; [exact E|].
  destruct (validate_resumes_at_recorded_slot _ _ _ _ _ _ _ E)
    as [(row & Hrow & _ & _ & H) _].
  cbv [st_restart sessions] in Hrow.
  apply lookup_singleton_Some in Hrow as [_ <-].
  assert (_instances st_restart !! "b"%string = None) as Hl by done.
  rewrite Hl in H. destruct H as (st1 & Hsw & _ & Hc & Hi & _).
  assert (SessionStore._cleanup_expired cfg0 101 st_restart = (Ok tt, st_restart))
    as Hsame by (vm_compute; reflexivity).
  rewrite Hsame in Hsw. injection Hsw as <-.
  split; [exact Hc | exact Hi].
Defined.

(** With a healthy backend, [validate] of a key whose row is not expired and
    has a slot succeeds with that slot. *)
Lemma validate_ok cfg now be sid st row d p :
  sid ≠ ""%string → sessions st !! sid = Some row →
  SessionStore.expired cfg now row = false →
  col_display row = Some d → col_websocket_port row = Some p →
  backend_ok be →
  ∃ st', SessionStore.validate cfg now be sid st =
         (Ok (Some (mkSessionData (col_username row) (col_created_at row)
                      (col_last_seen row) d p)), st').
Proof.
  intros Hsid Hrow Hexp Hd Hp Hbe.
  destruct (validate_unfold cfg now be sid st Hsid) as (st1 & Hsw & ->).
  rewrite (swept_lookup _ _ _ _ _ Hsw), Hrow, Hexp. simpl. rewrite Hd, Hp.
  edestruct ensure_session_ok as (st3 & ->); [done|]. eauto.
Qed.

(** C8. Resume failure.  A failing launch step surfaces: for a key that is
    not live, whose row is not expired and records a display and a port,
    [validate] with a backend of which some step fails raises the
    failed-to-resume error, with the error of the first failing step as
    cause.  And whenever [validate] raises, the error is the
    failed-to-resume error (never the failed-to-provision or no-free-slots
    error) with a failing backend as cause; the row of the key remains, with
    [last_seen] refreshed, and the key is not live; a later [validate] of
    the key, while the row is not expired and with a healthy backend, runs
    the launch steps again at the recorded display and port and makes the
    key live there.  The rollback is the one of [start_session]: from the
    same state and slot both end in the same state. *)
Theorem validate_resume_failure cfg now be sid st :
  (∀ row d p,
     sid ≠ ""%string →
     sessions st !! sid = Some row →
     SessionStore.expired cfg now row = false →
     col_display row = Some d → col_websocket_port row = Some p →
     _instances st !! sid = None →
     backend_fails be →
     ∃ st', SessionStore.validate cfg now be sid st =
            (Raise (FailedToResume
                      (if decide (vnc_returncode be ≠ 0)
                       then VncStartFailed d else OSError)), st')) ∧
  (∀ e st',
     SessionStore.validate cfg now be sid st = (Raise e, st') →
     (∃ cause, e = FailedToResume cause) ∧
     (∀ cause, e ≠ FailedToProvision cause) ∧ e ≠ NoFreeSlots ∧
     backend_fails be ∧
     _instances st !! sid = None ∧
     _instances st' !! sid = None ∧
     (∃ row d p,
        sessions st !! sid = Some row ∧
        SessionStore.expired cfg now row = false ∧
        col_display row = Some d ∧ col_websocket_port row = Some p ∧
        sessions st' !! sid = Some (SessionStore.set_last_seen now row) ∧
        ∀ now2 be2,
          SessionStore.expired cfg now2 (SessionStore.set_last_seen now row) = false →
          backend_ok be2 →
          ∃ data st'' st1,
            SessionStore._cleanup_expired cfg now2 st' = (Ok tt, st1) ∧
            SessionStore.validate cfg now2 be2 sid st' = (Ok (Some data), st'') ∧
            calls st'' = calls st1 ++
              [CVncKill d; CVncStart d; CSleep 1;
               CSpawnDosbox d (length (procs st1));
               CSpawnWebsockify p d (S (length (procs st1)))] ∧
            _instances st'' !! sid =
              Some (mkInstance sid (col_username row) d p
                      [length (procs st1); S (length (procs st1))])) ∧
     (∀ s u d p cause s',
        _instances s !! sid = None →
        first_free cfg (used_displays s) (range (max_instances cfg)) = Some (d, p) →
        (ensure_session be sid u d p s = (Raise (FailedToResume cause), s') ↔
         start_session cfg be sid u s = (Raise (FailedToProvision cause), s')))).
Proof.
  split.
  { intros row d p Hsid Hrow Hexp Hd Hp Hdead Hbe.
    destruct (validate_unfold cfg now be sid st Hsid) as (st1 & Hsw & ->).
    assert (sessions st1 !! sid = Some row) as Hrow1
      by (by rewrite (swept_lookup _ _ _ _ _ Hsw), Hrow, Hexp).
    pose proof (swept_instance _ _ _ _ _ _ Hsw Hrow1) as Hinst.
    rewrite Hrow1. simpl. rewrite Hd, Hp.
    edestruct (ensure_session_fails be sid (col_username row) d p
                 (set_sessions (alter (SessionStore.set_last_seen now) sid) st1))
      as (st3 & ->); [simpl; by rewrite Hinst | done | eauto]. }
  intros e st' E.
  assert (sid ≠ ""%string) as Hsid by (intros ->; by rewrite validate_empty in E).
  destruct (validate_unfold cfg now be sid st Hsid) as (st1 & Hsw & Hv).
  rewrite Hv in E. clear Hv.
  destruct (sessions st1 !! sid) as [row|] eqn:Hrow; [|done].
  pose proof (swept_instance _ _ _ _ _ _ Hsw Hrow) as Hinst1.
  rewrite (swept_lookup _ _ _ _ _ Hsw) in Hrow.
  destruct (sessions st !! sid) as [row'|] eqn:Hst; [|done].
  destruct (SessionStore.expired cfg now row') eqn:Hexp; [done|].
  injection Hrow as ->. simpl in E.
  destruct (col_display row) as [d|] eqn:Hd; [|done].
  destruct (col_websocket_port row) as [p|] eqn:Hp; [|done].
  destruct (ensure_session _ _ _ _ _ _) as [[[]|e'] st3] eqn:Hens; [done|].
  injection E as -> ->.
  pose proof (ensure_session_sessions _ _ _ _ _ _ _ _ Hens) as Hsess.
  apply ensure_session_spec in Hens as (Hdead & Hinst & Hbe & cause & ->).
  simpl in Hdead.
  assert (sessions st' !! sid = Some (SessionStore.set_last_seen now row)) as Hrow'.
  { rewrite Hsess. simpl. rewrite lookup_alter_eq.
    by rewrite (swept_lookup _ _ _ _ _ Hsw), Hst, Hexp. }
  assert (_instances st' !! sid = None) as Hdead' by (by rewrite Hinst).
  split_and!; try done; [by eexists | by rewrite <- Hinst1 | |].
  - exists row, d, p. split_and!; try done. intros now2 be2 Hexp2 Hbe2.
    destruct (validate_ok cfg now2 be2 sid st' _ d p Hsid Hrow' Hexp2 Hd Hp Hbe2)
      as (st'' & E2).
    pose proof (validate_resume_inv _ _ _ _ _ _ _ E2 Hdead') as H.
    destruct H as (row2 & st2 & Hrow2 & _ & _ & _ & Hsw2 & _ & Hi2 & _ & Hc2).
    rewrite Hrow' in Hrow2. injection Hrow2 as <-. simpl in Hi2, Hc2.
    eexists _, st'', st2. split_and!; [apply Hsw2 | exact E2 | exact Hc2 |].
    by rewrite Hi2, lookup_insert_eq.
  - intros s u d' p' c s' Hs Hff.
    rewrite (start_session_as_ensure _ _ _ _ _ d' p') by done.
    destruct (ensure_session be sid u d' p' s) as [[[]|e1] s1] eqn:E1.
    + split; intros [=].
    + apply ensure_session_spec in E1 as (_ & _ & _ & c1 & ->).
      split; by intros [= -> ->].
Qed.

(** After a restart: with websockify failing to launch the error carries
    the [OSError] of [Popen], with the VNC server failing to start it
    carries the error of [_start_vnc]; in both cases [validate] raises, and
    the key is not live afterwards. *)
Lemma validate_resume_failure_witness :
  (∃ st', SessionStore.validate cfg0 101 be_ws_fails "b" st_restart =
          (Raise (FailedToResume OSError), st')) ∧
  (∃ st', SessionStore.validate cfg0 101 be_vnc_fails "b" st_restart =
          (Raise (FailedToResume (VncStartFailed 11)), st')) ∧
  backend_fails be_ws_fails ∧
  _instances (SessionStore.validate cfg0 101 be_ws_fails "b" st_restart).2 !! "b"%string
    = None.
Proof.
  assert (sessions st_restart !! "b"%string =
          Some (mkRow "bob" (Some 11) (Some 7700) 95 99)) as Hrow
    by (vm_compute; reflexivity).
  assert (_instances st_restart !! "b"%string = None) as Hdead
    by (vm_compute; reflexivity).
  assert (SessionStore.expired cfg0 101 (mkRow "bob" (Some 11) (Some 7700) 95 99)
          = false) as Hexp by (vm_compute; reflexivity).
  assert ("b"%string ≠ ""%string) as Hsid by discriminate.
  assert (backend_fails be_ws_fails) as Hws by (right; right; reflexivity).
  assert (backend_fails be_vnc_fails) as Hvnc by (left; vm_compute; discriminate).
  split_and!.
  - exact (proj1 (validate_resume_failure cfg0 101 be_ws_fails "b" st_restart)
             _ 11 7700 Hsid Hrow Hexp eq_refl eq_refl Hdead Hws).
  - exact (proj1 (validate_resume_failure cfg0 101 be_vnc_fails "b" st_restart)
             _ 11 7700 Hsid Hrow Hexp eq_refl eq_refl Hdead Hvnc).
  - exact Hws.
  - destruct (proj1 (validate_resume_failure cfg0 101 be_ws_fails "b" st_restart)
                _ 11 7700 Hsid Hrow Hexp eq_refl eq_refl Hdead Hws) as (st' & E).
    by destruct (proj2 (validate_resume_failure cfg0 101 be_ws_fails "b" st_restart)
                   _ _ E) as (_ & _ & _ & _ & _ & Hi & _); rewrite E.
Defined.

(** ** The expiry sweep *)

Lemma idle_expired cfg now row :
  col_last_seen row = now - idle_timeout cfg - 1 → SessionStore.expired cfg now row = true.
Proof.
  intros H. unfold SessionStore.expired. apply orb_true_iff. left.
  rewrite Z.gtb_ltb. apply Z.ltb_lt. lia.
Qed.

(** C4 as stated fails for the empty key: [validate] returns before the
    sweep, and bob's row, last seen at [now - idle_timeout - 1], survives the
    call. *)
Lemma validate_empty_key_does_not_sweep :
  ¬ (∀ cfg now be sid st r st' k row,
       SessionStore.validate cfg now be sid st = (r, st') →
       sessions st !! k = Some row →
       col_last_seen row = now - idle_timeout cfg - 1 →
       sessions st' !! k = None).
Proof.
  intros H.
  specialize (H cfg0 110 be_ok ""%string st_restart (Ok None) st_restart "b"%string
                (mkRow "bob" (Some 11) (Some 7700) 95 99)).
  by specialize (H eq_refl eq_refl eq_refl).
Qed.

(** C4 (amended). Expiry sweep: [validate] with a non-empty key first runs
    the sweep, which deletes the expired rows in one batch and then stops the
    sessions they named.  When the call ends, whatever its result, every row
    that was expired at [now_ts] is gone and its key is not live, and every
    other row is still there, unchanged except that [last_seen] of the
    validated key is [now_ts].  A row last seen at
    [now_ts - idle_timeout - 1] is among the removed ones. *)
Theorem validate_sweeps_expired cfg now be sid st r st' :
  sid ≠ ""%string →
  SessionStore.validate cfg now be sid st = (r, st') →
  SessionStore._cleanup_expired cfg now st =
    for_each (SessionStore.select_ids (SessionStore.expired cfg now) st) stop_session
      (set_sessions (filter (λ kr, SessionStore.expired cfg now kr.2 ≠ true)) st) ∧
  (∀ k row, sessions st !! k = Some row →
     if SessionStore.expired cfg now row
     then sessions st' !! k = None ∧ _instances st' !! k = None
     else sessions st' !! k =
          Some (if decide (k = sid) then SessionStore.set_last_seen now row else row)) ∧
  (∀ k row, sessions st !! k = Some row →
     col_last_seen row = now - idle_timeout cfg - 1 →
     sessions st' !! k = None ∧ _instances st' !! k = None).
Proof.
  intros Hsid E. split; [done|].
  assert (∀ k row, sessions st !! k = Some row →
     if SessionStore.expired cfg now row
     then sessions st' !! k = None ∧ _instances st' !! k = None
     else sessions st' !! k =
          Some (if decide (k = sid) then SessionStore.set_last_seen now row else row))
    as Hall.
  2:{ split; [done|]. intros k row Hk Hseen. specialize (Hall k row Hk).
      by rewrite (idle_expired _ _ _ Hseen) in Hall. }
  intros k row Hk.
  destruct (validate_unfold cfg now be sid st Hsid) as (st1 & Hsw & Hv).
  rewrite Hv in E. clear Hv.
  pose proof (swept_lookup _ _ _ _ k Hsw) as Hk1. rewrite Hk in Hk1.
  pose proof (sw_instances _ _ _ _ Hsw k) as Hi1.
  (* the table and the entry of [k] after the lookup and the update *)
  assert (∀ st2, sessions st2 = alter (SessionStore.set_last_seen now) sid (sessions st1) →
            is_Some (sessions st1 !! sid) →
            (∀ j, j ≠ sid → _instances st2 !! j = _instances st1 !! j) →
            if SessionStore.expired cfg now row
            then sessions st2 !! k = None ∧ _instances st2 !! k = None
            else sessions st2 !! k =
                 Some (if decide (k = sid) then SessionStore.set_last_seen now row else row))
    as Hupd.
  { intros st2 Hs2 [rs Hrs] Hi2. rewrite Hs2, lookup_alter.
    destruct (SessionStore.expired cfg now row) eqn:Hexp.
    - assert (k ≠ sid) as Hne by (intros ->; congruence).
      rewrite decide_False by done. split; [done|].
      rewrite Hi2, Hi1 by done. rewrite decide_True; [done|].
      apply elem_of_select_ids. eauto.
    - destruct (decide (sid = k)) as [->|Hne].
      + by rewrite Hk1, decide_True.
      + by rewrite Hk1, decide_False by done. }
  destruct (sessions st1 !! sid) as [rs|] eqn:Hrs.
  - simpl in E.
    destruct (col_display rs) as [d|], (col_websocket_port rs) as [p|];
      try (injection E as <- <-; by apply Hupd).
    destruct (ensure_session _ _ _ _ _ _) as [r3 st3] eqn:Hens.
    assert (st' = st3) as -> by (destruct r3; congruence).
    apply Hupd; [|done|].
    + by rewrite (ensure_session_sessions _ _ _ _ _ _ _ _ Hens).
    + intros j Hj. apply ensure_session_spec in Hens. destruct r3 as [[]|e3].
      * destruct Hens as [[_ ->]|(_ & _ & ps & ->)]; [done|].
        by rewrite lookup_insert_ne.
      * destruct Hens as (_ & -> & _). done.
  - injection E as <- <-. rewrite Hk1, Hi1.
    destruct (SessionStore.expired cfg now row) eqn:Hexp.
    + split; [done|]. rewrite decide_True; [done|]. apply elem_of_select_ids. eauto.
    + rewrite decide_False; [done|]. intros ->. congruence.
Qed.

(** [validate] of an unknown key at time 110 sweeps bob's row, last seen
    at 99. *)
Lemma validate_sweeps_expired_witness :
  ("zzz" ≠ "")%string ∧
  sessions (SessionStore.validate cfg0 110 be_ok "zzz" st_restart).2 !! "b"%string = None ∧
  _instances (SessionStore.validate cfg0 110 be_ok "zzz" st_restart).2 !! "b"%string = None.
Proof.
  assert ("zzz" ≠ "")%string as Hne by done.
  split; [exact Hne|].
  destruct (validate_sweeps_expired cfg0 110 be_ok "zzz" st_restart
              (SessionStore.validate cfg0 110 be_ok "zzz" st_restart).1
              (SessionStore.validate cfg0 110 be_ok "zzz" st_restart).2 Hne)
    as (_ & _ & H); [by destruct (SessionStore.validate _ _ _ _ _)|].
  by apply (H "b"%string (mkRow "bob" (Some 11) (Some 7700) 95 99)).
Defined.

(** ** [create_session] *)

Lemma evicted_lookup u st st1 k :
  evicted u st st1 →
  sessions st1 !! k =
  match sessions st !! k with
  | Some row => if decide (col_username row = u) then None else Some row
  | None => None
  end.
Proof.
  intros Hev. rewrite (ev_sessions _ _ _ Hev), map_lookup_filter.
  destruct (sessions st !! k) as [row|]; [|done]. simpl.
  unfold SessionStore.owned_by. case_decide; by simplify_option_eq.
Qed.

Lemma evicted_instance_gone u st st1 k row :
  evicted u st st1 → sessions st !! k = Some row → col_username row = u →
  _instances st1 !! k = None.
Proof.
  intros Hev Hk Hu. rewrite (ev_instances _ _ _ Hev), decide_True; [done|].
  apply elem_of_select_ids. exists row. by rewrite owned_by_true.
Qed.

Lemma evicted_instance_None u st st1 k :
  evicted u st st1 → _instances st !! k = None → _instances st1 !! k = None.
Proof. intros Hev Hk. rewrite (ev_instances _ _ _ Hev). by case_decide. Qed.

(** When [create_session] raises an [InstanceError], it is [start_session]
    that raised it, from the state reached by the eviction. *)
Lemma create_session_raise_inv cfg sid now be u st e st' :
  SessionStore.create_session cfg sid now be u st = (Raise e, st') →
  is_InstanceError e = true →
  ∃ st1, evicted u st st1 ∧ start_session cfg be sid u st1 = (Raise e, st').
Proof.
  intros E He. destruct (create_session_unfold cfg sid now be u st) as (st1 & Hev & Hc).
  rewrite Hc in E. exists st1. split; [done|].
  destruct (start_session cfg be sid u st1) as [[[d p]|e1] st2]; [|by simplify_eq].
  destruct (sessions st2 !! sid); by simplify_eq.
Qed.

(** C7. Create failure persists nothing: with a failing backend and a key
    that is not live, [create_session] raises an [InstanceError]; and
    whenever it raises one, this is the no-free-slots or failed-to-provision
    error of [start_session], and the table afterwards is the table before
    without the owner's rows: no row was inserted. *)
Theorem create_session_failure_persists_nothing cfg sid now be u st :
  (backend_fails be → _instances st !! sid = None →
   ∃ e st', SessionStore.create_session cfg sid now be u st = (Raise e, st') ∧
            is_InstanceError e = true) ∧
  (∀ e st',
     SessionStore.create_session cfg sid now be u st = (Raise e, st') →
     is_InstanceError e = true →
     (e = NoFreeSlots ∨ ∃ cause, e = FailedToProvision cause) ∧
     ∀ k, sessions st' !! k =
          match sessions st !! k with
          | Some row => if decide (col_username row = u) then None else Some row
          | None => None
          end).
Proof.
  split.
  - intros Hbe Hsid.
    destruct (create_session_unfold cfg sid now be u st) as (st1 & Hev & ->).
    destruct (start_session cfg be sid u st1) as [[[d p]|e] st2] eqn:E;
      apply start_session_spec in E.
    + destruct E as [(inst & Hi & _)|(_ & _ & (Hrc & [? H1] & [? H2]) & _)].
      * by rewrite (evicted_instance_None _ _ _ _ Hev Hsid) in Hi.
      * destruct Hbe as [?|[?|?]]; congruence.
    + exists e, st2. split; [done|].
      by destruct E as (_ & _ & [(-> & _)|(_ & c & ->)]).
  - intros e st' E He.
    apply create_session_raise_inv in E as (st1 & Hev & E); [|done].
    pose proof (start_session_sessions _ _ _ _ _ _ _ E) as Hs.
    apply start_session_spec in E as (_ & _ & H). split.
    + destruct H as [(-> & _)|(_ & c & ->)]; eauto.
    + intros k. rewrite Hs. by apply evicted_lookup.
Qed.

(** A login of bob while [vncserver] fails. *)
Lemma create_session_failure_persists_nothing_witness :
  (∃ e st', SessionStore.create_session cfg0 "a" 100 be_vnc_fails "bob" st_restart
            = (Raise e, st') ∧ is_InstanceError e = true) ∧
  sessions (SessionStore.create_session cfg0 "a" 100 be_vnc_fails "bob" st_restart).2
    !! "a"%string = None.
Proof.
  pose proof (create_session_failure_persists_nothing cfg0 "a" 100 be_vnc_fails "bob"
                st_restart) as [H1 H2].
  split.
  - apply H1; [by left | done].
  - destruct (H2 (FailedToProvision (VncStartFailed 11))
                (SessionStore.create_session cfg0 "a" 100 be_vnc_fails "bob" st_restart).2)
      as [_ H]; [by vm_compute | done |].
    by rewrite H.
Defined.

(** C10. [create_session] is not atomic: when it raises an [InstanceError],
    [start_session] was run from a state in which the owner's rows were
    already deleted and the sessions they named already stopped; the call
    ends with no row of the owner in the table and none of those sessions
    live, and the new key is not live either. *)
Theorem create_session_failure_leaves_owner_without_session cfg sid now be u st e st' :
  SessionStore.create_session cfg sid now be u st = (Raise e, st') →
  is_InstanceError e = true →
  (∃ st1,
     start_session cfg be sid u st1 = (Raise e, st') ∧
     (∀ k row, sessions st1 !! k = Some row → col_username row ≠ u) ∧
     (∀ k row, sessions st !! k = Some row → col_username row = u →
               _instances st1 !! k = None)) ∧
  (∀ k row, sessions st' !! k = Some row → col_username row ≠ u) ∧
  (∀ k row, sessions st !! k = Some row → col_username row = u →
            sessions st' !! k = None ∧ _instances st' !! k = None) ∧
  _instances st' !! sid = None.
Proof.
  intros E He. apply create_session_raise_inv in E as (st1 & Hev & E); [|done].
  pose proof (start_session_sessions _ _ _ _ _ _ _ E) as Hs.
  assert (∀ k row, sessions st1 !! k = Some row → col_username row ≠ u) as Hrows.
  { intros k row. rewrite (evicted_lookup _ _ _ k Hev).
    destruct (sessions st !! k) as [row'|]; [|done].
    case_decide; [done|]. by intros [= <-]. }
  split_and!.
  - exists st1. split_and!; [done..|]. intros k row. by apply evicted_instance_gone.
  - intros k row. rewrite Hs. apply Hrows.
  - intros k row Hk Hu. apply start_session_spec in E as (_ & -> & _).
    split; [|by eapply evicted_instance_gone].
    rewrite Hs, (evicted_lookup _ _ _ k Hev), Hk. by rewrite decide_True.
  - apply start_session_spec in E as (Hsid & -> & _). done.
Qed.

(** A login of bob while [vncserver] fails removes the row bob had. *)
Lemma create_session_failure_leaves_owner_without_session_witness :
  SessionStore.create_session cfg0 "a" 100 be_vnc_fails "bob" st_restart =
    (Raise (FailedToProvision (VncStartFailed 11)),
     (SessionStore.create_session cfg0 "a" 100 be_vnc_fails "bob" st_restart).2) ∧
  sessions (SessionStore.create_session cfg0 "a" 100 be_vnc_fails "bob" st_restart).2
    !! "b"%string = None.
Proof.
  assert (SessionStore.create_session cfg0 "a" 100 be_vnc_fails "bob" st_restart =
          (Raise (FailedToProvision (VncStartFailed 11)),
           (SessionStore.create_session cfg0 "a" 100 be_vnc_fails "bob" st_restart).2))
    as E by (vm_compute; reflexivity).
  split; [exact E|].
  destruct (create_session_failure_leaves_owner_without_session _ _ _ _ _ _ _ _ E eq_refl)
    as (_ & _ & H & _).
  by apply (H "b"%string (mkRow "bob" (Some 11) (Some 7700) 95 99)).
Defined.

(** A successful [create_session] provisions from the evicted state and
    then inserts the row of the new key. *)
Lemma create_session_ok_inv cfg sid now be u st info st' :
  SessionStore.create_session cfg sid now be u st = (Ok info, st') →
  ∃ st1 st2,
    evicted u st st1 ∧
    start_session cfg be sid u st1 = (Ok (si_display info, si_websocket_port info), st2) ∧
    sessions st2 !! sid = None ∧
    st' = set_sessions
            <[sid := mkRow u (Some (si_display info)) (Some (si_websocket_port info)) now now]>
            st2.
Proof.
  intros E. destruct (create_session_unfold cfg sid now be u st) as (st1 & Hev & Hc).
  rewrite Hc in E. exists st1.
  destruct (start_session cfg be sid u st1) as [[[d p]|e1] st2]; [|by simplify_eq].
  exists st2. destruct (sessions st2 !! sid) eqn:Hsid; by simplify_eq.
Qed.

(** C3. Single owner: after two successful calls of [create_session] for the
    same user, with distinct keys, the user's rows are exactly the row of
    the second key, the first key is not live, and the processes of the
    first session have exited. *)
Theorem create_twice_single_owner cfg s1 s2 t1 t2 be1 be2 u st r1 st1 r2 st2 :
  SessionStore.create_session cfg s1 t1 be1 u st = (Ok r1, st1) →
  SessionStore.create_session cfg s2 t2 be2 u st1 = (Ok r2, st2) →
  s1 ≠ s2 →
  rows_of u st2 =
    {[ s2 := mkRow u (Some (si_display r2)) (Some (si_websocket_port r2)) t2 t2 ]} ∧
  size (rows_of u st2) = 1%nat ∧
  _instances st2 !! s1 = None ∧
  (∀ inst p, _instances st1 !! s1 = Some inst → p ∈ processes inst →
             (p < length (procs st1))%nat → is_running st2 p = false).
Proof.
  intros E1 E2 Hne.
  apply create_session_ok_inv in E1 as (sa & sb & Heva & Ea & Hsa & ->).
  apply create_session_ok_inv in E2 as (sc & sd & Hevc & Ec & Hsc & ->).
  set (st1 := set_sessions _ sb) in *.
  assert (sessions st1 !! s1 = Some (mkRow u (Some (si_display r1))
            (Some (si_websocket_port r1)) t1 t1)) as Hrow1
    by apply lookup_insert_eq.
  pose proof (start_session_sessions _ _ _ _ _ _ _ Ec) as Hsd.
  assert (rows_of u (set_sessions
            <[s2 := mkRow u (Some (si_display r2)) (Some (si_websocket_port r2)) t2 t2]> sd)
          = {[ s2 := mkRow u (Some (si_display r2)) (Some (si_websocket_port r2)) t2 t2 ]})
    as Hrows.
  { apply map_eq. intros k. unfold rows_of. simpl. rewrite map_lookup_filter.
    destruct (decide (k = s2)) as [->|Hk].
    - rewrite lookup_insert_eq, lookup_singleton_eq. simpl. by rewrite option_guard_True.
    - rewrite lookup_insert_ne, lookup_singleton_ne by done.
      rewrite Hsd, (evicted_lookup _ _ _ k Hevc).
      destruct (sessions st1 !! k) as [row|]; [|done].
      case_decide; [done|]. simpl. by rewrite option_guard_False. }
  assert (_instances sc !! s1 = None) as Hgone1
    by (by eapply evicted_instance_gone).
  split_and!.
  - done.
  - rewrite Hrows. apply map_size_singleton.
  - apply start_session_spec in Ec. simpl.
    destruct Ec as [(_ & _ & _ & _ & ->)|(_ & _ & _ & ps & ->)]; [done|].
    by rewrite lookup_insert_ne.
  - intros inst p Hinst Hp Hlt. change (is_running sd p = false).
    pose proof (ev_length _ _ _ Hevc).
    eapply world_step_exited; [by eapply ws_start_session | lia |].
    eapply (ev_exited _ _ _ Hevc s1); [|done..].
    apply elem_of_select_ids. eexists. split; [done|]. by apply owned_by_true.
Qed.

(** Two logins of alice on an empty store. *)
Lemma create_twice_single_owner_witness :
  let run1 := SessionStore.create_session cfg0 "a" 100 be_ok "alice" st0 in
  let run2 := SessionStore.create_session cfg0 "c" 105 be_ok "alice" run1.2 in
  run1.1 = Ok (mkSessionInfo "a" 100 11 7700) ∧
  run2.1 = Ok (mkSessionInfo "c" 105 11 7700) ∧
  size (rows_of "alice" run2.2) = 1%nat ∧
  _instances run2.2 !! "a"%string = None.
Proof.
  intros run1 run2.
  assert (run1 = (Ok (mkSessionInfo "a" 100 11 7700), run1.2)) as E1
    by (vm_compute; reflexivity).
  assert (run2 = (Ok (mkSessionInfo "c" 105 11 7700), run2.2)) as E2
    by (vm_compute; reflexivity).
  assert ("a" ≠ "c")%string as Hne by done.
  destruct (create_twice_single_owner _ _ _ _ _ _ _ _ _ _ _ _ _ E1 E2 Hne)
    as (_ & Hsize & Hgone & _).
  split_and!; [by rewrite E1 | by rewrite E2 | exact Hsize | exact Hgone].
Defined.

(** ** Exclusivity at the level of the session store *)

Lemma exclusive_subset st st' :
  (∀ k i, _instances st' !! k = Some i → _instances st !! k = Some i) →
  exclusive st → exclusive st'.
Proof. intros Hsub Hex k1 k2 i1 i2 H1 H2. eapply Hex; eauto. Qed.

(** [create_session] keeps distinct sessions on distinct displays. *)
Lemma create_session_exclusive cfg sid now be u st r st' :
  SessionStore.create_session cfg sid now be u st = (r, st') →
  exclusive st → exclusive st'.
Proof.
  intros E Hex. destruct (create_session_unfold cfg sid now be u st) as (st1 & Hev & Hc).
  rewrite Hc in E. clear Hc.
  assert (exclusive st1) as Hex1.
  { eapply exclusive_subset; [|exact Hex]. intros k i.
    rewrite (ev_instances _ _ _ Hev). by case_decide. }
  destruct (start_session cfg be sid u st1) as [r2 st2] eqn:E2.
  apply start_session_exclusive in E2; [|done].
  destruct r2 as [[d p]|e]; [|by simplify_eq].
  destruct (sessions st2 !! sid); by simplify_eq.
Qed.

(** C1. Slot-index exclusivity is not preserved by [ensure_session]: after
    a restart with bob's session ["b"] recorded at display 11, a login of
    alice is given display 11 by [start_session], and the next [validate] of
    ["b"] makes [ensure_session] start ["b"] on display 11 as well.  Both
    calls return normally, and two live sessions share the display. *)
Theorem ensure_session_shares_display :
  let run1 := SessionStore.create_session cfg0 "a" 100 be_ok "alice" st_restart in
  let run2 := SessionStore.validate cfg0 101 be_ok "b" run1.2 in
  exclusive st_restart ∧ exclusive run1.2 ∧
  run1.1 = Ok (mkSessionInfo "a" 100 11 7700) ∧
  run2.1 = Ok (Some (mkSessionData "bob" 95 99 11 7700)) ∧
  _instances run2.2 !! "a"%string = Some (mkInstance "a" "alice" 11 7700 [0; 1]%nat) ∧
  _instances run2.2 !! "b"%string = Some (mkInstance "b" "bob" 11 7700 [2; 3]%nat) ∧
  ¬ exclusive run2.2.
Proof.
  intros run1 run2.
  assert (exclusive st_restart) as Hex0.
  { intros k1 k2 i1 i2 H. cbv [st_restart _instances] in H. by rewrite lookup_empty in H. }
  assert (_instances run2.2 !! "a"%string = Some (mkInstance "a" "alice" 11 7700 [0; 1]%nat))
    as Ha by (vm_compute; reflexivity).
  assert (_instances run2.2 !! "b"%string = Some (mkInstance "b" "bob" 11 7700 [2; 3]%nat))
    as Hb by (vm_compute; reflexivity).
  split_and!; try done.
  - eapply create_session_exclusive; [|exact Hex0]. apply surjective_pairing.
  - intros Hex. by apply (Hex _ _ _ _ Ha Hb).
Qed.

(** ** Rollback of a failed provisioning attempt *)

Lemma free_count_instances cfg st st' :
  _instances st' = _instances st → free_count cfg st' = free_count cfg st.
Proof. unfold free_count, used_displays. by intros ->. Qed.

(** A failed [start_session] leaves the registry, hence the number of free
    slots, as it was, and raises an [InstanceError]. *)
Lemma start_session_failure_frees_slot cfg be sid u st e st' :
  start_session cfg be sid u st = (Raise e, st') →
  _instances st' = _instances st ∧ free_count cfg st' = free_count cfg st ∧
  is_InstanceError e = true.
Proof.
  intros E. apply start_session_spec in E as (_ & Hi & He).
  split_and!; [done | by apply free_count_instances |].
  by destruct He as [(-> & _)|(_ & c & ->)].
Qed.

#[global] Instance no_force_preorder : PreOrder no_force.
Proof.
  split.
  - intros st. exists []. by rewrite app_nil_r.
  - intros s1 s2 s3 (n1 & E1 & F1) (n2 & E2 & F2). exists (n1 ++ n2).
    split; [by rewrite E2, E1, app_assoc | by apply Forall_app].
Qed.

Lemma no_force_log c st st' :
  gentle c → calls st' = calls st ++ [c] → no_force st st'.
Proof. intros Hc E. exists [c]. split; [done | by apply Forall_singleton]. Qed.

Lemma no_force_silent st st' : calls st' = calls st → no_force st st'.
Proof. intros E. exists []. by rewrite app_nil_r. Qed.

Lemma nf_terminate p : steps no_force (terminate p).
Proof. apply steps_modify. intros st. (eapply no_force_log; [|reflexivity]; exact I). Qed.

Lemma nf_vnc_kill d : steps no_force (vnc_kill d).
Proof. apply steps_modify. intros st. (eapply no_force_log; [|reflexivity]; exact I). Qed.

Lemma nf_sleep n : steps no_force (sleep n).
Proof. apply steps_modify. intros st. (eapply no_force_log; [|reflexivity]; exact I). Qed.

Lemma nf_poll p : steps no_force (poll_is_None p).
Proof. intros st r st' [= <- <-]. reflexivity. Qed.

Lemma nf_start_dosbox be d : steps no_force (_start_dosbox be d).
Proof.
  intros st r st'. unfold _start_dosbox, _spawn_process.
  destruct (dosbox_launch be); intros [= <- <-]; [(eapply no_force_log; [|reflexivity]; exact I) | reflexivity].
Qed.

Lemma nf_start_websockify be p d : steps no_force (_start_websockify be p d).
Proof.
  intros st r st'. unfold _start_websockify, _spawn_process.
  destruct (websockify_launch be); intros [= <- <-]; [(eapply no_force_log; [|reflexivity]; exact I) | reflexivity].
Qed.

Lemma nf_start_vnc be d : steps no_force (_start_vnc be d).
Proof.
  unfold _start_vnc. apply steps_bind; [apply _ | apply nf_vnc_kill | intros _].
  apply steps_bind; [apply _ | | intros _].
  - apply steps_modify. intros st. (eapply no_force_log; [|reflexivity]; exact I).
  - case_decide; [apply steps_raise; apply _|].
    apply steps_modify. intros st. by apply no_force_silent.
Qed.

Lemma nf_terminate_if_running p : steps no_force (terminate_if_running p).
Proof.
  unfold terminate_if_running.
  apply steps_bind; [apply _ | apply nf_poll | intros []].
  - apply nf_terminate.
  - apply steps_ret; apply _.
Qed.

Lemma nf_set_instances f : steps no_force (modify (set_instances f)).
Proof. apply steps_modify. intros st. by apply no_force_silent. Qed.

#[global] Hint Resolve nf_terminate nf_vnc_kill nf_sleep nf_poll nf_start_dosbox
  nf_start_websockify nf_start_vnc nf_terminate_if_running nf_set_instances : steps.

(** Neither [start_session] nor [ensure_session] ever waits for a process
    or kills one, whatever the backend does. *)
Lemma start_session_no_force cfg be sid u : steps no_force (start_session cfg be sid u).
Proof.
  unfold start_session. steps_tac. case_match; steps_tac.
  - unfold _allocate_slot. steps_tac. case_match; steps_tac.
  - destruct a0 as [d p]. steps_tac.
Qed.

Lemma ensure_session_no_force be sid u d p : steps no_force (ensure_session be sid u d p).
Proof. unfold ensure_session. steps_tac. case_match; steps_tac. Qed.

(** [stop_process] on a running process that ignores SIGTERM waits and
    then kills. *)
Lemma stop_process_forces p pr st :
  procs st !! p = Some pr → running pr = true → on_term pr = IgnoresTerm →
  calls (stop_process p st).2 = calls st ++ [CTerminate p; CWait p 5; CKill p].
Proof.
  intros Hp Hrun Hterm. unfold stop_process, poll_is_None, terminate, wait, kill. munfold.
  assert (is_running st p = true) as -> by (unfold is_running; by rewrite Hp).
  rewrite is_running_log, is_running_alter, decide_True, Hp by done.
  unfold on_sigterm. rewrite Hterm, Hrun. simpl. by rewrite <- !app_assoc.
Qed.

(** C2. Rollback of a failed [start_session] does not wait and does not
    kill: when DOSBox has started and ignores SIGTERM and the launch of
    websockify fails, the rollback sends [terminate] to DOSBox and stops the
    VNC server, and the call raises with the slot free again, but DOSBox is
    still running; [stop_process], the loop body of [stop_session], applied
    to the same process waits and kills it. *)
Theorem rollback_leaves_process_running :
  let run := start_session cfg0 be_ws_fails "a" "alice" st0 in
  run.1 = Raise (FailedToProvision OSError) ∧
  calls run.2 =
    [CVncKill 11; CVncStart 11; CSleep 1; CSpawnDosbox 11 0; CTerminate 0; CVncKill 11] ∧
  _instances run.2 = ∅ ∧
  free_count cfg0 run.2 = free_count cfg0 st0 ∧
  is_running run.2 0 = true ∧
  is_running (stop_process 0 run.2).2 0 = false ∧
  calls (stop_process 0 run.2).2 = calls run.2 ++ [CTerminate 0; CWait 0 5; CKill 0].
Proof. intros run. by vm_compute. Qed.

(** * Further properties *)

(** ** Teardown *)

(** [stop_session] ends by stopping the VNC server of the display. *)
Lemma stop_session_vnc sid st r st' inst :
  stop_session sid st = (r, st') → _instances st !! sid = Some inst →
  display inst ∉ vnc st'.
Proof.
  unfold stop_session. munfold. intros E Hi. rewrite Hi in E.
  destruct (stop_processes_spec (processes inst) (set_instances (delete sid) st))
    as (st1 & E1 & _).
  rewrite E1 in E. unfold vnc_kill in E. munfold. injection E as _ <-. simpl.
  rewrite elem_of_difference, elem_of_singleton. by intros [_ []].
Qed.

(** A key that is not live: [stop_session] changes nothing. *)
Lemma stop_session_not_live sid st :
  _instances st !! sid = None → stop_session sid st = (Ok tt, st).
Proof.
  intros Hi. unfold stop_session. munfold. rewrite Hi. f_equal.
  destruct st. unfold set_instances. simpl in *. by rewrite delete_id.
Qed.

(** X1. [stop_session] never raises.  It removes the key from the registry
    and leaves the other keys and the table alone; the VNC server of the
    session's display is stopped and every process of the session has
    exited, also one that ignores SIGTERM. *)
Theorem stop_session_tears_down sid st :
  ∃ st', stop_session sid st = (Ok tt, st') ∧
         _instances st' = delete sid (_instances st) ∧
         sessions st' = sessions st ∧
         ∀ inst, _instances st !! sid = Some inst →
                 (display inst ∉ vnc st') ∧
                 ∀ p, p ∈ processes inst → (p < length (procs st))%nat →
                      is_running st' p = false.
Proof.
  destruct (stop_session_spec sid st) as (st' & E & Hos & Hp). exists st'.
  split_and!; [done | by rewrite (os_instances _ _ Hos) | |].
  - by rewrite (ws_sessions _ _ (os_world _ _ Hos)).
  - intros inst Hi. split; [by eapply stop_session_vnc | intros p; by apply Hp].
Qed.

(** Stopping ["b"], whose first process ignores SIGTERM. *)
Lemma stop_session_tears_down_witness :
  _instances (stop_session "b" st_ab).2 !! "b"%string = None ∧
  is_running (stop_session "b" st_ab).2 2 = false.
Proof.
  destruct (stop_session_tears_down "b" st_ab) as (st' & E & Hi & _ & H).
  rewrite E. simpl. split; [by rewrite Hi, lookup_delete_eq|].
  destruct (H (mkInstance "b" "bob" 12 7701 [2%nat; 3%nat])) as [_ Hp]; [done|].
  apply Hp; [apply elem_of_cons; by left | simpl; lia].
Defined.

(** X2. [stop_session] of a key that is not live changes nothing at all, so
    a second [stop_session] of the same key is a no-op. *)
Theorem stop_session_twice sid st :
  (_instances st !! sid = None → stop_session sid st = (Ok tt, st)) ∧
  (∀ r st', stop_session sid st = (r, st') → stop_session sid st' = (Ok tt, st')).
Proof.
  split; [apply stop_session_not_live|].
  intros r st' E. apply stop_session_not_live.
  by rewrite (stop_session_instances _ _ _ _ E), lookup_delete_eq.
Qed.

(** A key that was never started, and stopping ["a"] twice. *)
Lemma stop_session_twice_witness :
  stop_session "zzz" st_a = (Ok tt, st_a) ∧
  stop_session "a" (stop_session "a" st_a).2 = (Ok tt, (stop_session "a" st_a).2).
Proof.
  split.
  - by apply (proj1 (stop_session_twice "zzz" st_a)).
  - apply (proj2 (stop_session_twice "a" st_a) (stop_session "a" st_a).1).
    by destruct (stop_session _ _).
Defined.

(** Stopping every live key, in any order, empties the registry. *)
Lemma stop_sessions_all ids st :
  (∀ k, is_Some (_instances st !! k) → k ∈ ids) →
  ∃ st', for_each ids stop_session st = (Ok tt, st') ∧
         _instances st' = ∅ ∧ sessions st' = sessions st ∧
         ∀ k inst p, _instances st !! k = Some inst → p ∈ processes inst →
                     (p < length (procs st))%nat → is_running st' p = false.
Proof.
  intros Hall. destruct (stop_sessions_spec ids st) as (st' & E & Hw & Hi & Hp).
  exists st'. split_and!; [done | | apply (ws_sessions _ _ Hw) |].
  - apply map_empty. intros k. rewrite Hi. case_decide as Hk; [done|].
    destruct (_instances st !! k) eqn:Hlk; [|done]. destruct Hk. apply Hall. eauto.
  - intros k inst p Hk. apply (Hp k inst p); [|done]. apply Hall. eauto.
Qed.

Lemma elem_of_keys (m : gmap string Instance) k :
  k ∈ (map_to_list m).*1 ↔ is_Some (m !! k).
Proof.
  rewrite list_elem_of_fmap. split.
  - intros ([k' x] & -> & H%elem_of_map_to_list). eauto.
  - intros [x H]. exists (k, x). split; [done|]. by apply elem_of_map_to_list.
Qed.

(** X3. [stop_all] never raises and leaves no session live: the registry is
    empty, the table is untouched and every process of every session has
    exited.  The same holds when the keys are visited in any other order. *)
Theorem stop_all_clears_registry st :
  (∃ st', stop_all st = (Ok tt, st') ∧
          _instances st' = ∅ ∧ sessions st' = sessions st ∧
          ∀ k inst p, _instances st !! k = Some inst → p ∈ processes inst →
                      (p < length (procs st))%nat → is_running st' p = false) ∧
  (∀ ids, ids ≡ₚ (map_to_list (_instances st)).*1 →
          ∃ st', for_each ids stop_session st = (Ok tt, st') ∧
                 _instances st' = ∅ ∧ sessions st' = sessions st ∧
                 ∀ k inst p, _instances st !! k = Some inst → p ∈ processes inst →
                             (p < length (procs st))%nat → is_running st' p = false).
Proof.
  split.
  - apply (stop_sessions_all (map_to_list (_instances st)).*1 st).
    intros k. apply elem_of_keys.
  - intros ids Hperm. apply stop_sessions_all. intros k Hk.
    rewrite Hperm. by apply elem_of_keys.
Qed.

(** Two live sessions stopped in the order b, a. *)
Lemma stop_all_clears_registry_witness :
  ["b"; "a"]%string ≡ₚ (map_to_list (_instances st_ab)).*1 ∧
  _instances (for_each ["b"; "a"]%string stop_session st_ab).2 = ∅.
Proof.
  assert (["b"; "a"]%string ≡ₚ (map_to_list (_instances st_ab)).*1) as Hperm.
  { vm_compute. first [reflexivity | apply Permutation_swap]. }
  split; [exact Hperm|].
  destruct (proj2 (stop_all_clears_registry st_ab) _ Hperm) as (st' & E & Hi & _).
  by rewrite E.
Defined.

(** ** Provisioning *)

(** X4. [start_session] is idempotent: once it has returned a slot for a
    key, every further call for that key returns the same slot and changes
    nothing, whatever the backend would do and whatever user name is
    passed. *)
Theorem start_session_idempotent cfg be sid u st slot st' :
  start_session cfg be sid u st = (Ok slot, st') →
  ∀ be2 u2, start_session cfg be2 sid u2 st' = (Ok slot, st').
Proof.
  intros E be2 u2. apply start_session_spec in E. destruct slot as [d p].
  assert (∃ inst, _instances st' !! sid = Some inst ∧
                  display inst = d ∧ websocket_port inst = p) as (inst & Hi & <- & <-).
  { destruct E as [(inst & Hi & -> & -> & ->)|(_ & _ & _ & ps & ->)]; [eauto|].
    eexists. by rewrite lookup_insert_eq. }
  unfold start_session. munfold. by rewrite Hi.
Qed.

(** A second login attempt for key ["a"], now with a failing backend. *)
Lemma start_session_idempotent_witness :
  start_session cfg0 be_ok "a" "alice" st0 =
    (Ok (11, 7700), (start_session cfg0 be_ok "a" "alice" st0).2) ∧
  start_session cfg0 be_vnc_fails "a" "mallory" (start_session cfg0 be_ok "a" "alice" st0).2 =
    (Ok (11, 7700), (start_session cfg0 be_ok "a" "alice" st0).2).
Proof.
  assert (start_session cfg0 be_ok "a" "alice" st0 =
          (Ok (11, 7700), (start_session cfg0 be_ok "a" "alice" st0).2)) as E
    by (vm_compute; reflexivity).
  split; [exact E|]. by apply (start_session_idempotent _ _ _ _ _ _ _ E).
Defined.

(** X5. A successful [start_session] for a key that is not live hands out
    the lowest free slot of the pool: its index is in range, the display and
    the port are the ones of that index, and the display was not in use.  It
    has then launched, in this order, the VNC server (after stopping one left
    on the display), DOSBox after a pause of one second, and websockify,
    each launch step having succeeded; the handles of the two processes are
    recorded with the session, and the table is untouched. *)
Theorem start_session_fresh cfg be sid u st d p st' :
  _instances st !! sid = None →
  start_session cfg be sid u st = (Ok (d, p), st') →
  (∃ i, 0 ≤ i < max_instances cfg ∧
        d = base_display cfg + i ∧ p = base_websocket_port cfg + i ∧
        ¬ held cfg st i ∧ ∀ j, 0 ≤ j < i → held cfg st j) ∧
  _instances st' =
    <[sid := mkInstance sid u d p [length (procs st); S (length (procs st))]]>
      (_instances st) ∧
  sessions st' = sessions st ∧
  calls st' = calls st ++
    [CVncKill d; CVncStart d; CSleep 1; CSpawnDosbox d (length (procs st));
     CSpawnWebsockify p d (S (length (procs st)))] ∧
  backend_ok be.
Proof.
  intros Hi E. pose proof (start_session_spec _ _ _ _ _ _ _ E) as Hspec.
  destruct Hspec as [(inst & Hl & _)|(_ & Hff & Hbe & _)]; [congruence|].
  rewrite (start_session_as_ensure _ _ _ _ _ d p) in E by done.
  destruct (ensure_session be sid u d p st) as [[[]|e] st1] eqn:Ee;
    [|by destruct e]. injection E as <-.
  apply ensure_session_launch in Ee as (tr1 & tr2 & _ & _ & Hi' & Hs & _ & _ & Hc);
    [|done].
  split_and!; try done.
  pose proof (first_free_range cfg (used_displays st)) as H. rewrite Hff in H.
  destruct H as (i & Hr & -> & -> & Hfree & Hlow). exists i.
  split_and!; try done; [lia.. | by rewrite held_used |].
  intros j Hj. by apply held_used, Hlow.
Qed.

(** With ["a"] on display 11, key ["c"] gets display 12 and port 7701, and
    the log grows by the launch at that slot. *)
Lemma start_session_fresh_witness :
  _instances st_a !! "c"%string = None ∧
  start_session cfg0 be_ok "c" "carol" st_a =
    (Ok (12, 7701), (start_session cfg0 be_ok "c" "carol" st_a).2) ∧
  calls (start_session cfg0 be_ok "c" "carol" st_a).2 =
    calls st_a ++
    [CVncKill 12; CVncStart 12; CSleep 1; CSpawnDosbox 12 (length (procs st_a));
     CSpawnWebsockify 7701 12 (S (length (procs st_a)))].
Proof.
  assert (_instances st_a !! "c"%string = None) as Hi by done.
  assert (start_session cfg0 be_ok "c" "carol" st_a =
          (Ok (12, 7701), (start_session cfg0 be_ok "c" "carol" st_a).2)) as E
    by (vm_compute; reflexivity).
  split_and!; [exact Hi | exact E |].
  by destruct (start_session_fresh _ _ _ _ _ _ _ _ Hi E) as (_ & _ & _ & H & _).
Defined.

(** X6. Teardown releases the slot: when distinct sessions are on distinct
    displays and the session on slot [i] is stopped, slot [i] is no longer
    held and the next allocation returns a slot whose index is at most
    [i]. *)
Theorem stop_session_frees_slot cfg sid st inst i r st' :
  exclusive st →
  _instances st !! sid = Some inst →
  display inst = base_display cfg + i →
  0 ≤ i < max_instances cfg →
  stop_session sid st = (r, st') →
  ¬ held cfg st' i ∧
  ∃ j, 0 ≤ j ≤ i ∧
       _allocate_slot cfg st' =
         (Ok (base_display cfg + j, base_websocket_port cfg + j), st').
Proof.
  intros Hex Hi Hd Hr E.
  assert (¬ held cfg st' i) as Hfree.
  { intros (k & inst' & Hk & Hd'). rewrite (stop_session_instances _ _ _ _ E) in Hk.
    apply lookup_delete_Some in Hk as [Hne Hk].
    apply (Hex sid k inst inst'); congruence. }
  split; [done|].
  pose proof (first_free_range cfg (used_displays st')) as H.
  unfold _allocate_slot. munfold.
  destruct (first_free _ _ _) as [[d p]|].
  - destruct H as (j & Hj & -> & -> & _ & Hlow). exists j. split; [|done].
    split; [lia|]. destruct (decide (j ≤ i)); [done|].
    destruct Hfree. apply held_used, Hlow. lia.
  - destruct Hfree. by apply held_used, H.
Qed.

(** One slot, held by ["a"]; after [stop_session] it is allocated again. *)
Lemma stop_session_frees_slot_witness :
  exclusive st_a ∧
  _allocate_slot cfg1 st_a = (Raise NoFreeSlots, st_a) ∧
  ∃ j, 0 ≤ j ≤ 0 ∧
       _allocate_slot cfg1 (stop_session "a" st_a).2 =
         (Ok (base_display cfg1 + j, base_websocket_port cfg1 + j),
          (stop_session "a" st_a).2).
Proof.
  assert (exclusive st_a) as Hex.
  { intros k1 k2 i1 i2 H1 H2. cbv [st_a _instances] in H1, H2.
    apply lookup_singleton_Some in H1 as [<- _].
    apply lookup_singleton_Some in H2 as [<- _]. done. }
  split_and!; [exact Hex | by vm_compute |].
  refine (proj2 (stop_session_frees_slot cfg1 "a" st_a
            (mkInstance "a" "alice" 11 7700 [0%nat; 1%nat]) 0
            (stop_session "a" st_a).1 (stop_session "a" st_a).2 Hex _ _ _ _));
    [done | done | simpl; lia | by destruct (stop_session _ _)].
Defined.

(** ** Logout, and the life of a session *)

Lemma delete_spec sid st :
  sid ≠ ""%string →
  ∃ st', SessionStore.delete sid st = (Ok tt, st') ∧
         sessions st' = delete sid (sessions st) ∧
         _instances st' = delete sid (_instances st) ∧
         ∀ inst p, _instances st !! sid = Some inst → p ∈ processes inst →
                   (p < length (procs st))%nat → is_running st' p = false.
Proof.
  intros Hsid.
  destruct (stop_session_spec sid (set_sessions (delete sid) st)) as (st' & E & Hos & Hp).
  exists st'. unfold SessionStore.delete. rewrite decide_False by done. munfold.
  rewrite E. split_and!; [done | | |].
  - by rewrite (ws_sessions _ _ (os_world _ _ Hos)).
  - by rewrite (os_instances _ _ Hos).
  - intros inst p. apply Hp.
Qed.

Lemma delete_empty_key st : SessionStore.delete "" st = (Ok tt, st).
Proof. done. Qed.

(** X7. [delete] never raises.  For a non-empty key it removes the row and
    the registry entry of that key and of no other key, and the processes of
    the session have exited; for the empty key it does nothing. *)
Theorem delete_removes_session sid st :
  (sid = ""%string → SessionStore.delete sid st = (Ok tt, st)) ∧
  (sid ≠ ""%string →
   ∃ st', SessionStore.delete sid st = (Ok tt, st') ∧
          sessions st' = delete sid (sessions st) ∧
          _instances st' = delete sid (_instances st) ∧
          ∀ inst p, _instances st !! sid = Some inst → p ∈ processes inst →
                    (p < length (procs st))%nat → is_running st' p = false).
Proof. split; [intros ->; apply delete_empty_key | apply delete_spec]. Qed.

(** Bob's row after a restart is deleted; the empty key changes nothing. *)
Lemma delete_removes_session_witness :
  SessionStore.delete "" st_restart = (Ok tt, st_restart) ∧
  ("b" ≠ "")%string ∧
  sessions (SessionStore.delete "b" st_restart).2 !! "b"%string = None.
Proof.
  assert ("b" ≠ "")%string as Hne by done.
  split_and!; [by apply (proj1 (delete_removes_session "" st_restart)) | exact Hne |].
  destruct (proj2 (delete_removes_session "b" st_restart) Hne) as (st' & E & Hs & _).
  rewrite E. simpl. by rewrite Hs, lookup_delete_eq.
Defined.

(** [validate] of a key without row returns [None] and adds no row and no
    registry entry for it. *)
Lemma validate_no_row cfg now be sid st :
  sessions st !! sid = None →
  ∃ st', SessionStore.validate cfg now be sid st = (Ok None, st') ∧
         sessions st' !! sid = None ∧
         (_instances st !! sid = None → _instances st' !! sid = None).
Proof.
  intros Hrow. destruct (decide (sid = ""%string)) as [->|Hsid].
  { exists st. by rewrite validate_empty. }
  destruct (validate_unfold cfg now be sid st Hsid) as (st1 & Hsw & ->).
  pose proof (swept_lookup _ _ _ _ sid Hsw) as H1. rewrite Hrow in H1.
  rewrite H1. exists st1. split_and!; [done..|].
  intros Hi. rewrite (sw_instances _ _ _ _ Hsw). by case_decide.
Qed.

(** X8. After [delete] of a key, [validate] of that key returns [None],
    whatever the time and the backend, and the key stays without row and
    out of the registry. *)
Theorem delete_then_validate_absent cfg sid st r st' now be :
  SessionStore.delete sid st = (r, st') →
  sid ≠ ""%string →
  ∃ st'', SessionStore.validate cfg now be sid st' = (Ok None, st'') ∧
          sessions st'' !! sid = None ∧ _instances st'' !! sid = None.
Proof.
  intros E Hsid. destruct (delete_spec sid st Hsid) as (st1 & E1 & Hs & Hi & _).
  rewrite E in E1. injection E1 as _ <-.
  destruct (validate_no_row cfg now be sid st') as (st'' & Ev & Hs' & Hi').
  { by rewrite Hs, lookup_delete_eq. }
  exists st''. split_and!; [done..|]. apply Hi'. by rewrite Hi, lookup_delete_eq.
Qed.

(** Bob logs out after the restart; his key no longer validates. *)
Lemma delete_then_validate_absent_witness :
  SessionStore.delete "b" st_restart = (Ok tt, (SessionStore.delete "b" st_restart).2) ∧
  ("b" ≠ "")%string ∧
  (SessionStore.validate cfg0 101 be_ok "b" (SessionStore.delete "b" st_restart).2).1
    = Ok None.
Proof.
  assert (SessionStore.delete "b" st_restart =
          (Ok tt, (SessionStore.delete "b" st_restart).2)) as E by (vm_compute; reflexivity).
  assert ("b" ≠ "")%string as Hne by done.
  split_and!; [exact E | exact Hne |].
  destruct (delete_then_validate_absent cfg0 _ _ _ _ 101 be_ok E Hne) as (st'' & Ev & _).
  by rewrite Ev.
Defined.

(** [validate] of a live key with an unexpired row that has a slot succeeds
    without asking the backend. *)
Lemma validate_live cfg now be sid st row d p :
  sid ≠ ""%string → sessions st !! sid = Some row →
  SessionStore.expired cfg now row = false →
  col_display row = Some d → col_websocket_port row = Some p →
  is_Some (_instances st !! sid) →
  ∃ st', SessionStore.validate cfg now be sid st =
           (Ok (Some (mkSessionData (col_username row) (col_created_at row)
                        (col_last_seen row) d p)), st') ∧
         sessions st' !! sid = Some (SessionStore.set_last_seen now row) ∧
         _instances st' !! sid = _instances st !! sid ∧
         calls st' = calls (SessionStore._cleanup_expired cfg now st).2.
Proof.
  intros Hsid Hrow Hexp Hd Hp Hlive.
  destruct (validate_unfold cfg now be sid st Hsid) as (st1 & Hsw & ->).
  pose proof (swept_lookup _ _ _ _ sid Hsw) as H1. rewrite Hrow, Hexp in H1.
  pose proof (swept_instance _ _ _ _ _ _ Hsw H1) as Hi1.
  rewrite H1. simpl. rewrite Hd, Hp.
  rewrite ensure_session_live by (simpl; by rewrite Hi1).
  eexists. split_and!; [done | | done |].
  - simpl. by rewrite lookup_alter_eq, H1.
  - simpl. by rewrite (sw_run _ _ _ _ Hsw).
Qed.

(** [validate] of a key whose row is expired removes the row and the
    registry entry and returns [None]. *)
Lemma validate_expired cfg now be sid st row :
  sid ≠ ""%string → sessions st !! sid = Some row →
  SessionStore.expired cfg now row = true →
  ∃ st', SessionStore.validate cfg now be sid st = (Ok None, st') ∧
         sessions st' !! sid = None ∧ _instances st' !! sid = None.
Proof.
  intros Hsid Hrow Hexp.
  destruct (validate_unfold cfg now be sid st Hsid) as (st1 & Hsw & ->).
  pose proof (swept_lookup _ _ _ _ sid Hsw) as H1. rewrite Hrow, Hexp in H1.
  rewrite H1. exists st1. split_and!; [done..|].
  rewrite (sw_instances _ _ _ _ Hsw), decide_True; [done|].
  apply elem_of_select_ids. eauto.
Qed.

Lemma expired_false cfg now row :
  SessionStore.expired cfg now row = false ↔
  now - col_last_seen row ≤ idle_timeout cfg ∧
  now - col_created_at row ≤ absolute_timeout cfg.
Proof.
  unfold SessionStore.expired. rewrite orb_false_iff, !Z.gtb_ltb, !Z.ltb_ge. done.
Qed.

(** The row and the registry entry a successful [create_session] leaves. *)
Lemma create_session_ok_post cfg sid now be u st info st' :
  SessionStore.create_session cfg sid now be u st = (Ok info, st') →
  si_session_id info = sid ∧ si_created_at info = now ∧
  sessions st' !! sid =
    Some (mkRow u (Some (si_display info)) (Some (si_websocket_port info)) now now) ∧
  ∃ inst, _instances st' !! sid = Some inst ∧
          display inst = si_display info ∧ websocket_port inst = si_websocket_port info.
Proof.
  intros E. destruct (create_session_unfold cfg sid now be u st) as (st1 & _ & Hc).
  rewrite Hc in E. clear Hc.
  destruct (start_session cfg be sid u st1) as [[[d p]|e] st2] eqn:Es;
    [|by simplify_eq].
  destruct (sessions st2 !! sid) eqn:Hnone; simplify_eq. simpl.
  split_and!; [done.. | apply lookup_insert_eq |].
  apply start_session_spec in Es.
  destruct Es as [(inst & Hi & -> & -> & ->)|(_ & _ & _ & ps & ->)]; [eauto|].
  eexists. by rewrite lookup_insert_eq.
Qed.

(** X9. Login then validate: after a successful [create_session] at time
    [now], a [validate] of the new key at time [now2] succeeds exactly when
    [now2 - now] exceeds neither timeout.  It then returns the user, the
    creation time and the slot of the login, and it succeeds whatever the
    backend would do, because the session is live; otherwise it returns
    [None] and the session is gone from the table and the registry. *)
Theorem create_then_validate cfg sid now be u st info st' now2 be2 :
  SessionStore.create_session cfg sid now be u st = (Ok info, st') →
  sid ≠ ""%string →
  (now2 - now ≤ idle_timeout cfg ∧ now2 - now ≤ absolute_timeout cfg →
   ∃ st'', SessionStore.validate cfg now2 be2 sid st' =
             (Ok (Some (mkSessionData u now now (si_display info)
                          (si_websocket_port info))), st'')) ∧
  (¬ (now2 - now ≤ idle_timeout cfg ∧ now2 - now ≤ absolute_timeout cfg) →
   ∃ st'', SessionStore.validate cfg now2 be2 sid st' = (Ok None, st'') ∧
           sessions st'' !! sid = None ∧ _instances st'' !! sid = None).
Proof.
  intros E Hsid. apply create_session_ok_post in E as (_ & _ & Hrow & inst & Hi & _).
  set (row := mkRow u _ _ now now) in Hrow. split.
  - intros Hwin.
    destruct (validate_live cfg now2 be2 sid st' row (si_display info)
                (si_websocket_port info)) as (st'' & Ev & _);
      [done | done | by apply expired_false | done | done | by eexists | by eexists].
  - intros Hout.
    apply (validate_expired cfg now2 be2 sid st' row); [done..|].
    apply not_false_iff_true. by rewrite expired_false.
Qed.

(** Alice logs in at 100; her key validates at 105 although the backend is
    then broken, and not at 111. *)
Lemma create_then_validate_witness :
  let st1 := (SessionStore.create_session cfg0 "a" 100 be_ok "alice" st0).2 in
  (SessionStore.validate cfg0 105 be_vnc_fails "a" st1).1 =
    Ok (Some (mkSessionData "alice" 100 100 11 7700)) ∧
  (SessionStore.validate cfg0 111 be_ok "a" st1).1 = Ok None.
Proof.
  intros st1.
  assert (SessionStore.create_session cfg0 "a" 100 be_ok "alice" st0 =
          (Ok (mkSessionInfo "a" 100 11 7700), st1)) as E by (vm_compute; reflexivity).
  assert ("a" ≠ "")%string as Hne by done.
  split.
  - destruct (proj1 (create_then_validate cfg0 _ _ _ _ _ _ _ 105 be_vnc_fails E Hne))
      as (st'' & Ev); [simpl; lia|]. by rewrite Ev.
  - destruct (proj2 (create_then_validate cfg0 _ _ _ _ _ _ _ 111 be_ok E Hne))
      as (st'' & Ev & _); [simpl; lia|]. by rewrite Ev.
Defined.

(** The row and the registry entry a successful [validate] leaves. *)
Lemma validate_some_post cfg now be sid st data st' :
  SessionStore.validate cfg now be sid st = (Ok (Some data), st') →
  sid ≠ ""%string ∧
  ∃ row,
    sessions st !! sid = Some row ∧
    data = mkSessionData (col_username row) (col_created_at row) (col_last_seen row)
             (sd_display data) (sd_websocket_port data) ∧
    col_display row = Some (sd_display data) ∧
    col_websocket_port row = Some (sd_websocket_port data) ∧
    sessions st' !! sid = Some (SessionStore.set_last_seen now row) ∧
    is_Some (_instances st' !! sid).
Proof.
  destruct (decide (sid = ""%string)) as [->|Hsid]; [by rewrite validate_empty|].
  destruct (validate_unfold cfg now be sid st Hsid) as (st1 & Hsw & ->).
  destruct (sessions st1 !! sid) as [row|] eqn:Hrow; [|done].
  pose proof Hrow as Hrow1. rewrite (swept_lookup _ _ _ _ _ Hsw) in Hrow.
  destruct (sessions st !! sid) as [row'|]; [|done].
  destruct (SessionStore.expired cfg now row') eqn:Hexp; [done|].
  injection Hrow as ->. simpl.
  destruct (col_display row) as [d|] eqn:Hd; [|done].
  destruct (col_websocket_port row) as [p|] eqn:Hp; [|done].
  destruct (ensure_session _ _ _ _ _ _) as [[[]|e] st3] eqn:E; [|done].
  intros [= <- <-]. split; [done|]. exists row. simpl. split_and!; try done.
  - rewrite (ensure_session_sessions _ _ _ _ _ _ _ _ E). simpl.
    by rewrite lookup_alter_eq, Hrow1.
  - apply ensure_session_spec in E.
    destruct E as [[Hlive ->]|(_ & _ & ps & ->)]; [done|].
    rewrite lookup_insert_eq. eauto.
Qed.

(** X10. The idle window slides: after a successful [validate] at time
    [now], the next [validate] of the key at time [now2] succeeds exactly
    when [now2 - now] does not exceed the idle timeout and [now2] minus the
    creation time does not exceed the absolute timeout.  It then reports
    [now] as the time last seen and the same user, creation time and slot,
    whatever the backend would do; otherwise it returns [None] and the
    session is gone from the table and the registry. *)
Theorem validate_then_validate cfg now be sid st data st' now2 be2 :
  SessionStore.validate cfg now be sid st = (Ok (Some data), st') →
  (now2 - now ≤ idle_timeout cfg ∧ now2 - sd_created_at data ≤ absolute_timeout cfg →
   ∃ st'', SessionStore.validate cfg now2 be2 sid st' =
             (Ok (Some (mkSessionData (sd_username data) (sd_created_at data) now
                          (sd_display data) (sd_websocket_port data))), st'')) ∧
  (¬ (now2 - now ≤ idle_timeout cfg ∧
      now2 - sd_created_at data ≤ absolute_timeout cfg) →
   ∃ st'', SessionStore.validate cfg now2 be2 sid st' = (Ok None, st'') ∧
           sessions st'' !! sid = None ∧ _instances st'' !! sid = None).
Proof.
  intros E.
  apply validate_some_post in E as (Hsid & row & Hrow & -> & Hd & Hp & Hrow' & Hlive).
  simpl in *. split.
  - intros Hwin.
    destruct (validate_live cfg now2 be2 sid st' (SessionStore.set_last_seen now row)
                (sd_display data) (sd_websocket_port data)) as (st'' & Ev & _);
      [done | done | by apply expired_false | done | done | done |].
    by exists st''.
  - intros Hout.
    apply (validate_expired cfg now2 be2 sid st' (SessionStore.set_last_seen now row));
      [done..|].
    apply not_false_iff_true. by rewrite expired_false.
Qed.

(** Bob's key after the restart: validated at 101, again at 111 with a
    broken backend, and no longer at 112. *)
Lemma validate_then_validate_witness :
  let st1 := (SessionStore.validate cfg0 101 be_ok "b" st_restart).2 in
  (SessionStore.validate cfg0 111 be_vnc_fails "b" st1).1 =
    Ok (Some (mkSessionData "bob" 95 101 11 7700)) ∧
  (SessionStore.validate cfg0 112 be_ok "b" st1).1 = Ok None.
Proof.
  intros st1.
  assert (SessionStore.validate cfg0 101 be_ok "b" st_restart =
          (Ok (Some (mkSessionData "bob" 95 99 11 7700)), st1)) as E
    by (vm_compute; reflexivity).
  split.
  - destruct (proj1 (validate_then_validate cfg0 _ _ _ _ _ _ 111 be_vnc_fails E))
      as (st'' & Ev); [simpl; lia|]. by rewrite Ev.
  - destruct (proj2 (validate_then_validate cfg0 _ _ _ _ _ _ 112 be_ok E))
      as (st'' & Ev & _); [simpl; lia|]. by rewrite Ev.
Defined.

(** ** What a call leaves alone *)

(** X11. A login never touches another user's session: whatever
    [create_session] returns or raises, a row of another user under another
    key is unchanged and so is the registry entry of that key. *)
Theorem create_session_keeps_others cfg sid now be u st r st' k row :
  SessionStore.create_session cfg sid now be u st = (r, st') →
  sessions st !! k = Some row → col_username row ≠ u → k ≠ sid →
  sessions st' !! k = Some row ∧ _instances st' !! k = _instances st !! k.
Proof.
  intros E Hk Hu Hne.
  destruct (create_session_unfold cfg sid now be u st) as (st1 & Hev & Hc).
  rewrite Hc in E. clear Hc.
  assert (sessions st1 !! k = Some row) as Hk1.
  { rewrite (evicted_lookup _ _ _ k Hev), Hk. by rewrite decide_False. }
  assert (_instances st1 !! k = _instances st !! k) as Hi1.
  { rewrite (ev_instances _ _ _ Hev), decide_False; [done|].
    intros (r0 & Hr0 & Hown%owned_by_true)%elem_of_select_ids. congruence. }
  destruct (start_session cfg be sid u st1) as [r2 st2] eqn:Es.
  pose proof (start_session_sessions _ _ _ _ _ _ _ Es) as Hs2.
  assert (_instances st2 !! k = _instances st1 !! k) as Hi2.
  { apply start_session_spec in Es. destruct r2 as [[d p]|e].
    - destruct Es as [(_ & _ & _ & _ & ->)|(_ & _ & _ & ps & ->)]; [done|].
      by rewrite lookup_insert_ne.
    - by destruct Es as (_ & -> & _). }
  destruct r2 as [[d p]|e]; [|simplify_eq; by rewrite Hs2, Hi2].
  destruct (sessions st2 !! sid); simplify_eq; simpl.
  - by rewrite Hs2, Hi2.
  - by rewrite lookup_insert_ne, Hs2, Hi2.
Qed.

(** Alice logs in after the restart; bob's row is as it was. *)
Lemma create_session_keeps_others_witness :
  sessions (SessionStore.create_session cfg0 "a" 100 be_ok "alice" st_restart).2
    !! "b"%string = Some (mkRow "bob" (Some 11) (Some 7700) 95 99).
Proof.
  refine (proj1 (create_session_keeps_others cfg0 "a" 100 be_ok "alice" st_restart
            (SessionStore.create_session cfg0 "a" 100 be_ok "alice" st_restart).1
            _ "b" _ _ _ _ _)); [by destruct (SessionStore.create_session _ _ _ _ _ _) | done..].
Defined.

(** X12. [validate] touches only the validated key and the expired
    sessions: whatever it returns or raises, the row and the registry entry
    of any other key whose row is not expired, or that has no row, are
    unchanged. *)
Theorem validate_keeps_others cfg now be sid st r st' k :
  SessionStore.validate cfg now be sid st = (r, st') →
  k ≠ sid →
  (∀ row, sessions st !! k = Some row → SessionStore.expired cfg now row = false) →
  sessions st' !! k = sessions st !! k ∧ _instances st' !! k = _instances st !! k.
Proof.
  intros E Hne Hfresh.
  destruct (decide (sid = ""%string)) as [->|Hsid].
  { rewrite validate_empty in E. by injection E as _ <-. }
  destruct (validate_unfold cfg now be sid st Hsid) as (st1 & Hsw & Hv).
  rewrite Hv in E. clear Hv.
  assert (sessions st1 !! k = sessions st !! k) as Hk1.
  { rewrite (swept_lookup _ _ _ _ k Hsw).
    destruct (sessions st !! k) as [row|] eqn:Hk; [|done]. by rewrite (Hfresh row). }
  assert (_instances st1 !! k = _instances st !! k) as Hi1.
  { rewrite (sw_instances _ _ _ _ Hsw), decide_False; [done|].
    intros (r0 & Hr0 & Hexp)%elem_of_select_ids. rewrite (Hfresh r0) in Hexp; done. }
  destruct (sessions st1 !! sid) as [rs|]; [|by simplify_eq].
  simpl in E.
  assert (sessions (set_sessions (alter (SessionStore.set_last_seen now) sid) st1) !! k
          = sessions st !! k) as Hk2 by (simpl; by rewrite lookup_alter_ne).
  destruct (col_display rs) as [d|], (col_websocket_port rs) as [p|];
    try (by simplify_eq).
  destruct (ensure_session _ _ _ _ _ _) as [r3 st3] eqn:Hens.
  assert (st' = st3) as -> by (destruct r3; congruence).
  rewrite (ensure_session_sessions _ _ _ _ _ _ _ _ Hens). split; [done|].
  apply ensure_session_spec in Hens. destruct r3 as [[]|e3].
  - destruct Hens as [[_ ->]|(_ & _ & ps & ->)]; [done|]. by rewrite lookup_insert_ne.
  - by destruct Hens as (_ & -> & _).
Qed.

(** Alice's session is untouched when bob's key is validated. *)
Lemma validate_keeps_others_witness :
  let st1 := (SessionStore.create_session cfg0 "a" 100 be_ok "alice" st_restart).2 in
  sessions (SessionStore.validate cfg0 101 be_ok "b" st1).2 !! "a"%string
    = sessions st1 !! "a"%string.
Proof.
  intros st1.
  refine (proj1 (validate_keeps_others cfg0 101 be_ok "b" st1
            (SessionStore.validate cfg0 101 be_ok "b" st1).1 _ "a" _ _ _));
    [by destruct (SessionStore.validate _ _ _ _ _) | done |].
  intros row Hrow. vm_compute in Hrow. by injection Hrow as <-.
Defined.

(** ** Invariants of the session store *)

Lemma pooled_subset cfg st st' :
  (∀ k i, _instances st' !! k = Some i → _instances st !! k = Some i) →
  pooled cfg st → pooled cfg st'.
Proof. intros Hsub Hp k i Hk. eapply Hp, Hsub, Hk. Qed.

Lemma store_inv_set_sessions cfg st f :
  exclusive st → pooled cfg st → in_sync (set_sessions f st) →
  store_inv cfg (set_sessions f st).
Proof. intros Hex Hp Hs. by split_and!. Qed.

Lemma create_session_inv cfg sid now be u st :
  store_inv cfg st →
  store_inv cfg (SessionStore.create_session cfg sid now be u st).2.
Proof.
  intros (Hex & Hsync & Hpool).
  destruct (create_session_unfold cfg sid now be u st) as (st1 & Hev & ->).
  assert (∀ k i, _instances st1 !! k = Some i → _instances st !! k = Some i) as Hsub.
  { intros k i. rewrite (ev_instances _ _ _ Hev). by case_decide. }
  assert (in_sync st1) as Hsync1.
  { intros k row Hk. rewrite (evicted_lookup _ _ _ k Hev) in Hk.
    destruct (sessions st !! k) as [row'|] eqn:Hk0; [|done].
    case_decide as Hown; [done|]. injection Hk as <-.
    destruct (Hsync k row' Hk0) as (inst & Hi & ?). exists inst. split; [|done].
    rewrite (ev_instances _ _ _ Hev), decide_False; [done|].
    intros (r0 & Hr0 & Hown'%owned_by_true)%elem_of_select_ids. congruence. }
  destruct (start_session cfg be sid u st1) as [r2 st2] eqn:Es.
  assert (exclusive st2) as Hex2.
  { eapply start_session_exclusive; [done|]. by eapply exclusive_subset. }
  pose proof (start_session_sessions _ _ _ _ _ _ _ Es) as Hs2.
  apply start_session_spec in Es.
  assert (store_inv cfg st2 ∧
          ∀ d p, r2 = Ok (d, p) →
                 ∃ inst, _instances st2 !! sid = Some inst ∧
                         display inst = d ∧ websocket_port inst = p)
    as ((_ & Hsync2 & Hpool2) & Hslot).
  { destruct r2 as [[d p]|e].
    - destruct Es as [(inst & Hi & -> & -> & ->)|(Hnone & Hff & _ & ps & Hi')].
      + split; [split_and!; [done..|by eapply pooled_subset]|].
        intros d p [= <- <-]. eauto.
      + split; [split_and!; [done| |]|].
        * intros k row Hk. rewrite Hs2 in Hk.
          destruct (Hsync1 k row Hk) as (inst & Hi & ?). exists inst.
          split; [|done]. rewrite Hi', lookup_insert_ne; [done|]. congruence.
        * intros k inst. rewrite Hi'.
          intros [[<- <-]|[_ Hk]]%lookup_insert_Some.
          -- pose proof (first_free_range cfg (used_displays st1)) as H.
             rewrite Hff in H. destruct H as (i & Hr & -> & -> & _). by exists i.
          -- by eapply Hpool, Hsub.
        * intros d' p' [= <- <-]. eexists. by rewrite Hi', lookup_insert_eq.
    - destruct Es as (_ & Hi' & _). split; [|done]. split_and!; [done| |].
      + intros k row Hk. rewrite Hs2 in Hk. rewrite Hi'. by apply Hsync1.
      + eapply pooled_subset; [|exact Hpool]. intros k i. rewrite Hi'. apply Hsub. }
  destruct r2 as [[d p]|e]; [|by split_and!].
  destruct (sessions st2 !! sid) eqn:Hsid; [by split_and!|].
  apply store_inv_set_sessions; [done..|].
  intros k row. simpl. intros [[<- <-]|[_ Hk]]%lookup_insert_Some.
  - destruct (Hslot d p eq_refl) as (inst & Hi & <- & <-). eauto.
  - by apply Hsync2.
Qed.

Lemma validate_inv cfg now be sid st :
  store_inv cfg st → store_inv cfg (SessionStore.validate cfg now be sid st).2.
Proof.
  intros (Hex & Hsync & Hpool).
  destruct (decide (sid = ""%string)) as [->|Hsid]; [by rewrite validate_empty|].
  destruct (validate_unfold cfg now be sid st Hsid) as (st1 & Hsw & ->).
  assert (∀ k i, _instances st1 !! k = Some i → _instances st !! k = Some i) as Hsub.
  { intros k i. rewrite (sw_instances _ _ _ _ Hsw). by case_decide. }
  assert (store_inv cfg st1) as (Hex1 & Hsync1 & Hpool1).
  { split_and!; [by eapply exclusive_subset | | by eapply pooled_subset].
    intros k row Hk. rewrite (swept_instance _ _ _ _ _ _ Hsw Hk).
    rewrite (swept_lookup _ _ _ _ _ Hsw) in Hk.
    destruct (sessions st !! k) as [row'|] eqn:Hk0; [|done].
    destruct (SessionStore.expired cfg now row'); [done|]. injection Hk as <-.
    by apply Hsync. }
  destruct (sessions st1 !! sid) as [rs|] eqn:Hrs; [|by split_and!].
  assert (store_inv cfg (set_sessions (alter (SessionStore.set_last_seen now) sid) st1))
    as Hinv2.
  { apply store_inv_set_sessions; [done..|]. intros k row. simpl.
    rewrite lookup_alter. case_decide as Hk; [subst k|by apply Hsync1].
    rewrite Hrs. intros [= <-].
    destruct (Hsync1 sid rs Hrs) as (inst & ? & ? & ?). by exists inst. }
  simpl. destruct (col_display rs) as [d|], (col_websocket_port rs) as [p|]; try done.
  destruct (Hsync1 sid rs Hrs) as (inst & Hi & _).
  by rewrite ensure_session_live by (simpl; eauto).
Qed.

Lemma delete_inv cfg sid st :
  store_inv cfg st → store_inv cfg (SessionStore.delete sid st).2.
Proof.
  intros (Hex & Hsync & Hpool).
  destruct (decide (sid = ""%string)) as [->|Hsid]; [by rewrite delete_empty_key|].
  destruct (delete_spec sid st Hsid) as (st' & -> & Hs & Hi & _). simpl.
  split_and!.
  - by eapply exclusive_delete.
  - intros k row. rewrite Hs, Hi. intros [Hne Hk]%lookup_delete_Some.
    rewrite lookup_delete_ne by done. by apply Hsync.
  - eapply pooled_subset; [|done]. intros k i. rewrite Hi.
    by intros [_ ?]%lookup_delete_Some.
Qed.

Lemma run_ops_inv cfg ops st : store_inv cfg st → store_inv cfg (run_ops cfg st ops).
Proof.
  revert st. induction ops as [|op ops IH]; intros st Hinv; [done|].
  simpl. apply IH. destruct op; simpl.
  - by apply create_session_inv.
  - by apply validate_inv.
  - by apply delete_inv.
Qed.

(** An injective assignment of displays to keys needs as many displays as
    there are keys. *)
Lemma exclusive_size (m : gmap string Instance) (D : gset Z) :
  (∀ k1 k2 i1 i2, m !! k1 = Some i1 → m !! k2 = Some i2 → k1 ≠ k2 →
                  display i1 ≠ display i2) →
  (∀ k i, m !! k = Some i → display i ∈ D) →
  (size m ≤ size D)%nat.
Proof.
  revert D. induction m as [|k x m Hk IH] using map_ind; intros D Hex HD.
  - rewrite map_size_empty. lia.
  - rewrite map_size_insert_None by done.
    assert (display x ∈ D) as Hx by (apply (HD k); apply lookup_insert_eq).
    assert (size (D ∖ {[display x]}) = size D - 1)%nat as Hsz.
    { rewrite size_difference, size_singleton; [done|].
      by apply singleton_subseteq_l. }
    assert (size D ≠ 0)%nat.
    { intros H0%size_empty_inv. rewrite H0 in Hx. by apply not_elem_of_empty in Hx. }
    specialize (IH (D ∖ {[display x]})). rewrite Hsz in IH.
    enough (size m ≤ size D - 1)%nat by lia. apply IH.
    + intros k1 k2 i1 i2 H1 H2. apply Hex.
      * rewrite lookup_insert_ne; [done|]. congruence.
      * rewrite lookup_insert_ne; [done|]. congruence.
    + intros k' i Hk'. assert (k ≠ k') as Hne by congruence.
      apply elem_of_difference. split.
      * apply (HD k'). by rewrite lookup_insert_ne.
      * rewrite elem_of_singleton. intros Heq.
        apply (Hex k k' x i); [apply lookup_insert_eq | by rewrite lookup_insert_ne
                               | done | done].
Qed.

Lemma size_list_to_set_le (l : list Z) : (size (list_to_set l : gset Z) ≤ length l)%nat.
Proof.
  induction l as [|x l IH].
  - by rewrite list_to_set_nil, size_empty.
  - rewrite list_to_set_cons, size_union_alt, size_singleton. simpl.
    pose proof (subseteq_size (list_to_set l ∖ {[x]}) (list_to_set l : gset Z)) as H.
    assert (size (list_to_set l ∖ {[x]} : gset Z) ≤ size (list_to_set l : gset Z))%nat
      by (apply H; apply subseteq_difference_l; reflexivity).
    lia.
Qed.

(** The pool bounds the number of live sessions. *)
Lemma pool_capacity cfg st :
  exclusive st → pooled cfg st →
  (size (_instances st) ≤ Z.to_nat (max_instances cfg))%nat.
Proof.
  intros Hex Hpool.
  set (D := list_to_set ((λ i, base_display cfg + i) <$> range (max_instances cfg)) : gset Z).
  transitivity (size D).
  - apply exclusive_size; [exact Hex|]. intros k i Hk.
    destruct (Hpool k i Hk) as (j & Hj & -> & _).
    apply elem_of_list_to_set, list_elem_of_fmap. exists j. split; [done|].
    unfold range. apply list_elem_of_fmap. exists (Z.to_nat j).
    split; [lia|]. apply elem_of_seq. lia.
  - etransitivity; [apply size_list_to_set_le|].
    unfold range. by rewrite !length_fmap, length_seq.
Qed.

(** X13. The session store keeps its invariants.  From a state in which no
    two live sessions share a display, every row has its session live at the
    display and port of the row, and every live session sits on a slot of
    the pool (the empty store is such a state), these three facts hold again
    after any sequence of [create_session], [validate] and [delete] calls,
    with any keys, times, users and backend behaviour and whether the calls
    return or raise; and at most [max_instances] sessions are live. *)
Theorem store_invariant cfg ops st :
  exclusive st → in_sync st → pooled cfg st →
  let st' := run_ops cfg st ops in
  exclusive st' ∧ in_sync st' ∧ pooled cfg st' ∧
  (size (_instances st') ≤ Z.to_nat (max_instances cfg))%nat.
Proof.
  intros Hex Hsync Hpool st'.
  destruct (run_ops_inv cfg ops st) as (Hex' & Hsync' & Hpool'); [done|].
  split_and!; [done..|]. by apply pool_capacity.
Qed.

(** Three logins on a pool of two slots, a validation and a logout, from
    the empty store. *)
Lemma store_invariant_witness :
  let ops := [OpCreate "a" 100 be_ok "alice"; OpCreate "b" 101 be_ok "bob";
              OpCreate "c" 102 be_ok "carol"; OpValidate 103 be_ws_fails "a";
              OpDelete "b"]%string in
  exclusive (run_ops cfg0 st0 ops) ∧
  (size (_instances (run_ops cfg0 st0 ops)) ≤ 2)%nat.
Proof.
  intros ops.
  destruct (store_invariant cfg0 ops st0) as (Hex & _ & _ & Hsize).
  - intros k1 k2 i1 i2 H. cbv [st0 _instances] in H. by rewrite lookup_empty in H.
  - intros k row H. cbv [st0 sessions] in H. by rewrite lookup_empty in H.
  - intros k i H. cbv [st0 _instances] in H. by rewrite lookup_empty in H.
  - split; [exact Hex | exact Hsize].
Defined.

(** ** The request handlers *)

(** X14. [login] with an unknown user or a wrong password raises 401 and
    changes nothing: no session is evicted and nothing is launched. *)
Theorem login_rejects_bad_credentials cfg USERS sid now be u pw st :
  USERS !! u ≠ Some pw →
  Gateway.login cfg USERS sid now be u pw st = (HTTPException HTTP_401_UNAUTHORIZED, st).
Proof.
  intros Hbad. unfold Gateway.login. destruct (USERS !! u) as [expected|]; [|done].
  case_decide; [done|]. congruence.
Qed.

(** A wrong password for bob, while bob has a session. *)
Lemma login_rejects_bad_credentials_witness :
  users0 !! "bob"%string ≠ Some "guess"%string ∧
  Gateway.login cfg0 users0 "x" 100 be_ok "bob" "guess" st_restart =
    (HTTPException HTTP_401_UNAUTHORIZED, st_restart).
Proof.
  assert (users0 !! "bob"%string ≠ Some "guess"%string) as Hbad by done.
  split; [exact Hbad|]. by apply login_rejects_bad_credentials.
Defined.

(** What a [login] that responds has done. *)
Lemma login_respond_inv cfg USERS sid now be u pw st resp cookie st' :
  Gateway.login cfg USERS sid now be u pw st = (Respond (resp, cookie), st') →
  USERS !! u = Some pw ∧
  ∃ info,
    SessionStore.create_session cfg sid now be u st = (Ok info, st') ∧
    cookie = sid ∧
    resp = mkSessionResponse u now now (si_websocket_port info)
             (idle_timeout cfg) (absolute_timeout cfg).
Proof.
  unfold Gateway.login. destruct (USERS !! u) as [expected|]; [|done].
  case_decide as Hpw; [done|]. subst expected.
  destruct (SessionStore.create_session cfg sid now be u st) as [[info|e] st1] eqn:E.
  - apply create_session_ok_post in E as H. destruct H as (Hsid & Hnow & _).
    intros [= <- <- <-]. split; [done|]. exists info. by rewrite Hsid, Hnow.
  - by destruct (is_InstanceError e).
Qed.

(** X15. Login then session query: when [login] responds, a [get_session]
    request that carries the returned cookie value (as cookie or as header)
    at a time [now2] within both timeouts of the login responds with the
    very response of the login, whatever the backend would do. *)
Theorem login_then_get_session cfg USERS sid now be u pw st resp cookie st'
    now2 be2 request :
  Gateway.login cfg USERS sid now be u pw st = (Respond (resp, cookie), st') →
  cookie ≠ ""%string →
  Gateway.get_session_id_from_request request = cookie →
  now2 - now ≤ idle_timeout cfg → now2 - now ≤ absolute_timeout cfg →
  ∃ st'', Gateway.get_session cfg now2 be2 request st' = (Respond resp, st'').
Proof.
  intros E Hne Hreq Hidle Habs.
  apply login_respond_inv in E as (_ & info & E & -> & ->).
  apply create_session_ok_post in E as (_ & _ & Hrow & inst & Hi & _).
  destruct (validate_live cfg now2 be2 sid st' _ (si_display info)
              (si_websocket_port info) Hne Hrow) as (st'' & Ev & _);
    [by apply expired_false | done | done | by eexists |].
  exists st''. unfold Gateway.get_session, Gateway.require_session.
  by rewrite Hreq, Ev.
Qed.

(** Alice logs in at 100 and asks for her session at 105 with the cookie. *)
Lemma login_then_get_session_witness :
  let run := Gateway.login cfg0 users0 "a" 100 be_ok "alice" "wonder" st0 in
  run.1 = Respond (mkSessionResponse "alice" 100 100 7700 10 100, "a"%string) ∧
  (Gateway.get_session cfg0 105 be_vnc_fails (mkRequest (Some "a"%string) None) run.2).1
    = Respond (mkSessionResponse "alice" 100 100 7700 10 100).
Proof.
  intros run.
  assert (run = (Respond (mkSessionResponse "alice" 100 100 7700 10 100, "a"%string),
                 run.2)) as E by (vm_compute; reflexivity).
  split; [by rewrite E|].
  destruct (login_then_get_session cfg0 users0 _ _ _ _ _ _ _ _ _ 105 be_vnc_fails
              (mkRequest (Some "a"%string) None) E) as (st'' & Eg);
    [done | done | simpl; lia | simpl; lia |].
  by rewrite Eg.
Defined.

(** X16. Logout then any request: when [logout] responds, the session id of
    the request has neither row nor registry entry left, and every later
    [require_session] of a request with that session id raises 401, whatever
    the time and the backend. *)
Theorem logout_then_unauthorized cfg now be request st st' now2 be2 request2 :
  Gateway.logout cfg now be request st = (Respond tt, st') →
  Gateway.get_session_id_from_request request2 =
    Gateway.get_session_id_from_request request →
  sessions st' !! Gateway.get_session_id_from_request request = None ∧
  _instances st' !! Gateway.get_session_id_from_request request = None ∧
  ∃ st'', Gateway.require_session cfg now2 be2 request2 st' =
            (HTTPException HTTP_401_UNAUTHORIZED, st'').
Proof.
  unfold Gateway.logout, Gateway.require_session. intros E ->.
  set (sid := Gateway.get_session_id_from_request request) in *.
  destruct (SessionStore.validate cfg now be sid st) as [[[data|]|e] st1] eqn:Ev;
    try done.
  apply validate_some_post in Ev as (Hsid & _).
  destruct (delete_spec sid st1 Hsid) as (st2 & Ed & Hs & Hi & _).
  rewrite Ed in E. injection E as <-.
  assert (sessions st2 !! sid = None) as Hs' by (by rewrite Hs, lookup_delete_eq).
  assert (_instances st2 !! sid = None) as Hi' by (by rewrite Hi, lookup_delete_eq).
  split_and!; [done..|].
  destruct (validate_no_row cfg now2 be2 sid st2 Hs') as (st'' & -> & _). eauto.
Qed.

(** Alice logs in, logs out with her cookie, and asks for her session. *)
Lemma logout_then_unauthorized_witness :
  let st1 := (Gateway.login cfg0 users0 "a" 100 be_ok "alice" "wonder" st0).2 in
  let req := mkRequest (Some "a"%string) None in
  (Gateway.logout cfg0 101 be_ok req st1).1 = Respond tt ∧
  (Gateway.require_session cfg0 102 be_ok req (Gateway.logout cfg0 101 be_ok req st1).2).1
    = HTTPException HTTP_401_UNAUTHORIZED.
Proof.
  intros st1 req.
  assert (Gateway.logout cfg0 101 be_ok req st1 =
          (Respond tt, (Gateway.logout cfg0 101 be_ok req st1).2)) as E
    by (vm_compute; reflexivity).
  split; [by rewrite E|].
  destruct (logout_then_unauthorized cfg0 _ _ _ _ _ 102 be_ok req E eq_refl)
    as (_ & _ & st'' & Er).
  by rewrite Er.
Defined.

(** X17. A request without session id (no cookie and no header, or empty
    ones) is answered 401 by [require_session], [get_session] and [logout],
    and one without header or with an empty header by [internal_validate];
    the state is not touched: not even the expiry sweep runs. *)
Theorem anonymous_request_unauthorized cfg now be request st :
  (Gateway.get_session_id_from_request request = ""%string →
   Gateway.require_session cfg now be request st = (HTTPException HTTP_401_UNAUTHORIZED, st) ∧
   Gateway.get_session cfg now be request st = (HTTPException HTTP_401_UNAUTHORIZED, st) ∧
   Gateway.logout cfg now be request st = (HTTPException HTTP_401_UNAUTHORIZED, st)) ∧
  (header_X_Session_Id request = None ∨ header_X_Session_Id request = Some ""%string →
   Gateway.internal_validate cfg now be request st =
     (HTTPException HTTP_401_UNAUTHORIZED, st)).
Proof.
  split.
  - intros Hreq. unfold Gateway.logout, Gateway.get_session, Gateway.require_session.
    by rewrite Hreq, validate_empty.
  - unfold Gateway.internal_validate. intros [-> | ->]; [done|].
    by rewrite validate_empty.
Qed.

(** A request with neither cookie nor header, against a store with an
    expired row. *)
Lemma anonymous_request_unauthorized_witness :
  Gateway.get_session cfg0 200 be_ok (mkRequest None None) st_restart =
    (HTTPException HTTP_401_UNAUTHORIZED, st_restart) ∧
  Gateway.internal_validate cfg0 200 be_ok (mkRequest None (Some ""%string)) st_restart =
    (HTTPException HTTP_401_UNAUTHORIZED, st_restart).
Proof.
  split.
  - by apply (proj1 (anonymous_request_unauthorized cfg0 200 be_ok
                       (mkRequest None None) st_restart)).
  - apply (proj2 (anonymous_request_unauthorized cfg0 200 be_ok
                    (mkRequest None (Some ""%string)) st_restart)). by right.
Defined.

(** ** What teardown and the sweep do to processes *)

#[global] Instance spares_preorder ps : PreOrder (spares ps).
Proof.
  split.
  - by intros st.
  - intros s1 s2 s3 [H1 V1] [H2 V2]. split; [|congruence].
    intros q Hq. by rewrite H2, H1.
Qed.

Lemma spares_alter f c p ps st :
  p ∈ ps → spares ps st (log c (set_procs (alter f p) st)).
Proof.
  intros Hp. split; [|done]. intros q Hq. simpl.
  apply list_lookup_alter_ne. by intros ->.
Qed.

Lemma spares_stop_process ps p : p ∈ ps → steps (spares ps) (stop_process p).
Proof.
  intros Hp. unfold stop_process.
  apply steps_bind; [apply _ | | intros []].
  - intros st r st' [= <- <-]. reflexivity.
  - apply steps_bind; [apply _ | | intros _].
    + apply steps_modify. intros st. by apply spares_alter.
    + apply steps_try_except; [apply _ | | intros e].
      * intros st r st'. unfold wait. by destruct (is_running st p); intros [= <- <-].
      * destruct e; try (apply steps_raise; apply _).
        apply steps_modify. intros st. by apply spares_alter.
  - apply steps_ret; apply _.
Qed.

Lemma spares_stop_processes ps : steps (spares ps) (for_each ps stop_process).
Proof.
  assert (∀ l, (∀ p, p ∈ l → p ∈ ps) → steps (spares ps) (for_each l stop_process)) as H.
  { induction l as [|p l IH]; intros Hl; simpl.
    - apply steps_ret; apply _.
    - apply steps_bind; [apply _ | | intros _].
      + apply spares_stop_process, Hl, elem_of_cons. by left.
      + apply IH. intros q Hq. apply Hl, elem_of_cons. by right. }
  by apply H.
Qed.

(** X18. [stop_session] spares the other sessions: a process that is not
    one of the stopped session's processes keeps its entry in the process
    table, and the only VNC server stopped is the one of the session's
    display. *)
Theorem stop_session_spares_others sid st r st' :
  stop_session sid st = (r, st') →
  match _instances st !! sid with
  | Some inst =>
      (∀ q, q ∉ processes inst → procs st' !! q = procs st !! q) ∧
      vnc st' = vnc st ∖ {[display inst]}
  | None => procs st' = procs st ∧ vnc st' = vnc st
  end.
Proof.
  intros E. destruct (_instances st !! sid) as [inst|] eqn:Hi.
  - revert E. unfold stop_session. munfold. rewrite Hi.
    destruct (stop_processes_spec (processes inst) (set_instances (delete sid) st))
      as (st1 & E1 & _).
    destruct (spares_stop_processes _ _ _ _ E1) as [Hsp Hv].
    rewrite E1. unfold vnc_kill. munfold. intros [= <- <-]. simpl.
    split; [exact Hsp | by rewrite Hv].
  - rewrite stop_session_not_live in E by done. by injection E as _ <-.
Qed.

(** Stopping ["a"] leaves the processes and the display of ["b"] alone. *)
Lemma stop_session_spares_others_witness :
  procs (stop_session "a" st_ab).2 !! 2%nat = Some (mkProc true IgnoresTerm) ∧
  vnc (stop_session "a" st_ab).2 = {[ 12 ]}.
Proof.
  pose proof (stop_session_spares_others "a" st_ab (stop_session "a" st_ab).1
                (stop_session "a" st_ab).2) as H.
  assert (_instances st_ab !! "a"%string =
          Some (mkInstance "a" "alice" 11 7700 [0%nat; 1%nat])) as Hl by done.
  rewrite Hl in H. destruct H as [Hp Hv]; [by destruct (stop_session _ _)|].
  split.
  - rewrite (Hp 2%nat); [done|]. simpl.
    by intros [?|[?|?%elem_of_nil]%elem_of_cons]%elem_of_cons.
  - rewrite Hv. by vm_compute.
Defined.

(** X19. The sweep reclaims processes: after a [validate] with a non-empty
    key, whatever it returns or raises, every process of every session
    whose row was expired has exited. *)
Theorem validate_sweep_stops_processes cfg now be sid st r st' k row inst p :
  sid ≠ ""%string →
  SessionStore.validate cfg now be sid st = (r, st') →
  sessions st !! k = Some row → SessionStore.expired cfg now row = true →
  _instances st !! k = Some inst → p ∈ processes inst →
  (p < length (procs st))%nat →
  is_running st' p = false.
Proof.
  intros Hsid E Hk Hexp Hi Hp Hlt.
  destruct (delete_then_stop (SessionStore.expired cfg now)
              (SessionStore.select_ids (SessionStore.expired cfg now) st) st)
    as (st1 & E1 & _ & _ & Hlen & Hexit).
  destruct (validate_unfold cfg now be sid st Hsid) as (st1' & Hsw & Hv).
  assert (st1' = st1) as ->.
  { pose proof (sw_run _ _ _ _ Hsw) as Hrun.
    change (SessionStore._cleanup_expired cfg now st) with
      ((SessionStore.delete_where (SessionStore.expired cfg now);;
        for_each (SessionStore.select_ids (SessionStore.expired cfg now) st) stop_session) st)
      in Hrun.
    congruence. }
  assert (is_running st1 p = false) as Hp1.
  { apply (Hexit k inst p); [|done..]. apply elem_of_select_ids. eauto. }
  rewrite Hv in E. clear Hv.
  destruct (sessions st1 !! sid) as [rs|]; [|by simplify_eq].
  simpl in E.
  destruct (col_display rs) as [d|], (col_websocket_port rs) as [q|];
    try (by simplify_eq).
  destruct (ensure_session _ _ _ _ _ _) as [r3 st3] eqn:Hens.
  assert (st' = st3) as -> by (destruct r3; congruence).
  eapply world_step_exited; [by eapply ws_ensure_session | simpl; lia | done].
Qed.

(** A row of carol, expired at time 200, with a live session whose first
    process ignores SIGTERM. *)
Lemma validate_sweep_stops_processes_witness :
  is_running (SessionStore.validate cfg0 200 be_ok "zzz" st_stale).2 0 = false.
Proof.
  apply (validate_sweep_stops_processes cfg0 200 be_ok "zzz" st_stale
           (SessionStore.validate cfg0 200 be_ok "zzz" st_stale).1 _ "c"
           (mkRow "carol" (Some 11) (Some 7700) 95 99)
           (mkInstance "c" "carol" 11 7700 [0%nat; 1%nat]) 0%nat);
    [done | by destruct (SessionStore.validate _ _ _ _ _) | done | done | done
    | apply elem_of_cons; by left | simpl; lia].
Defined.

(** ** A full pool *)

Lemma select_ids_nil P st :
  (∀ k row, sessions st !! k = Some row → P row ≠ true) →
  SessionStore.select_ids P st = [].
Proof.
  intros H. unfold SessionStore.select_ids.
  assert (filter (λ kr : string * Row, P kr.2 = true) (sessions st) = ∅) as ->.
  { apply map_empty. intros k. apply map_lookup_filter_None. right.
    intros row Hk. by apply H in Hk. }
  by rewrite map_to_list_empty.
Qed.

(** X20. A full pool: when every slot is held, a login of a user who has no
    row, under a key that is not live, raises the no-free-slots error and
    changes nothing at all: every session stays as it was and nothing is
    launched. *)
Theorem create_session_pool_full cfg sid now be u st :
  (∀ i, 0 ≤ i < max_instances cfg → held cfg st i) →
  _instances st !! sid = None →
  (∀ k row, sessions st !! k = Some row → col_username row ≠ u) →
  SessionStore.create_session cfg sid now be u st = (Raise NoFreeSlots, st).
Proof.
  intros Hfull Hsid Hnone.
  assert (first_free cfg (used_displays st) (range (max_instances cfg)) = None) as Hff.
  { pose proof (first_free_range cfg (used_displays st)) as H.
    destruct (first_free _ _ _) as [[d p]|]; [|done].
    destruct H as (i & Hi & -> & _ & Hd & _). destruct Hd. by apply held_used, Hfull. }
  unfold SessionStore.create_session, SessionStore.delete_where. munfold.
  rewrite select_ids_nil.
  2:{ intros k row Hk. rewrite owned_by_true. by eapply Hnone. }
  simpl. munfold.
  assert (set_sessions
            (filter (λ kr : string * Row, SessionStore.owned_by u kr.2 ≠ true)) st = st)
    as ->.
  { destruct st as [i s pr v c]. unfold set_sessions. simpl in *. f_equal.
    apply map_filter_id. intros k row Hk. simpl. rewrite owned_by_true.
    by eapply Hnone. }
  unfold start_session, _allocate_slot. munfold. by rewrite Hsid, Hff.
Qed.

(** One slot, held by ["a"]: a login of bob is refused. *)
Lemma create_session_pool_full_witness :
  SessionStore.create_session cfg1 "b" 100 be_ok "bob" st_a = (Raise NoFreeSlots, st_a).
Proof.
  apply create_session_pool_full.
  - intros i Hi. simpl in Hi. assert (i = 0) as -> by lia.
    by apply (bool_decide_unpack _).
  - done.
  - intros k row H. cbv [st_a sessions] in H. by rewrite lookup_empty in H.
Defined.

(** X21. Outcomes of [login] with valid credentials.  When it responds, the
    cookie is the new key, the row of the key is in the table with the
    responded port, and the key is live.  Otherwise it raises 503, and the
    user has no row left, or it lets the primary-key error of the INSERT
    escape, which happens only when the key already had a row of another
    user.  No other status and no other exception is possible. *)
Theorem login_outcomes cfg USERS sid now be u pw st r st' :
  USERS !! u = Some pw →
  Gateway.login cfg USERS sid now be u pw st = (r, st') →
  match r with
  | Respond (resp, cookie) =>
      cookie = sid ∧
      (∃ d, sessions st' !! sid =
              Some (mkRow u (Some d) (Some (resp_websocket_port resp)) now now)) ∧
      is_Some (_instances st' !! sid)
  | HTTPException status_code =>
      status_code = HTTP_503_SERVICE_UNAVAILABLE ∧
      ∀ k row, sessions st' !! k = Some row → col_username row ≠ u
  | Uncaught e =>
      e = IntegrityError ∧
      ∃ row, sessions st !! sid = Some row ∧ col_username row ≠ u
  end.
Proof.
  intros Hpw. unfold Gateway.login. rewrite Hpw, decide_False by (by intros []).
  destruct (create_session_unfold cfg sid now be u st) as (st1 & Hev & Hc).
  destruct (SessionStore.create_session cfg sid now be u st) as [[info|e] st2] eqn:E.
  - intros [= <- <-]. apply create_session_ok_post in E as (Hs & _ & Hrow & inst & Hi & _).
    split_and!; [done | by eexists | by eexists].
  - assert (∀ k row, sessions st1 !! k = Some row → col_username row ≠ u) as Hrows.
    { intros k row. rewrite (evicted_lookup _ _ _ k Hev).
      destruct (sessions st !! k) as [row'|]; [|done].
      case_decide; [done|]. by intros [= <-]. }
    destruct (start_session cfg be sid u st1) as [[[d p]|e1] s2] eqn:Es.
    + pose proof (start_session_sessions _ _ _ _ _ _ _ Es) as Hs2.
      destruct (sessions s2 !! sid) as [row|] eqn:Hsid; [|by simplify_eq].
      injection Hc as -> ->. simpl. intros [= <- <-]. split; [done|].
      rewrite Hs2, (evicted_lookup _ _ _ sid Hev) in Hsid.
      destruct (sessions st !! sid) as [row'|]; [|done].
      case_decide; [done|]. injection Hsid as <-. eauto.
    + injection Hc as -> ->.
      pose proof (start_session_sessions _ _ _ _ _ _ _ Es) as Hs2.
      apply start_session_spec in Es as (_ & _ & He).
      assert (is_InstanceError e1 = true) as ->
        by (by destruct He as [(-> & _)|(_ & c & ->)]).
      intros [= <- <-]. split; [done|]. intros k row. rewrite Hs2. apply Hrows.
Qed.

(** Bob logs in after the restart while [vncserver] fails: 503, and no row
    of bob is left. *)
Lemma login_outcomes_witness :
  users0 !! "bob"%string = Some "builder"%string ∧
  (Gateway.login cfg0 users0 "x" 100 be_vnc_fails "bob" "builder" st_restart).1 =
    HTTPException HTTP_503_SERVICE_UNAVAILABLE ∧
  ∀ k row,
    sessions (Gateway.login cfg0 users0 "x" 100 be_vnc_fails "bob" "builder" st_restart).2
      !! k = Some row →
    col_username row ≠ "bob"%string.
Proof.
  assert (users0 !! "bob"%string = Some "builder"%string) as Hpw by done.
  pose proof (login_outcomes cfg0 users0 "x" 100 be_vnc_fails "bob" "builder" st_restart
                (HTTPException HTTP_503_SERVICE_UNAVAILABLE)
                (Gateway.login cfg0 users0 "x" 100 be_vnc_fails "bob" "builder"
                   st_restart).2 Hpw) as H.
  destruct H as [_ H]; [by vm_compute|].
  split_and!; [exact Hpw | by vm_compute | exact H].
Defined.

(** ** What the rollback achieves *)

(** X22. A failed launch, in [ensure_session] as in [start_session]: the
    registry and the table are unchanged, the VNC server of the display is
    stopped, the processes that existed before are untouched, and a process
    started by the attempt is still running only if it ignores SIGTERM. *)
Theorem launch_rollback be sid u d p st e st' :
  ensure_session be sid u d p st = (Raise e, st') →
  (∀ cfg, first_free cfg (used_displays st) (range (max_instances cfg)) = Some (d, p) →
          ∃ cause, e = FailedToResume cause ∧
                   start_session cfg be sid u st = (Raise (FailedToProvision cause), st')) ∧
  _instances st' = _instances st ∧ sessions st' = sessions st ∧
  (d ∉ vnc st') ∧
  (∀ q, (q < length (procs st))%nat → procs st' !! q = procs st !! q) ∧
  (∀ q pr, (length (procs st) ≤ q)%nat → procs st' !! q = Some pr →
           running pr = true → on_term pr = IgnoresTerm).
Proof.
  intros E. split.
  { intros cfg Hff. pose proof (ensure_session_spec _ _ _ _ _ _ _ _ E)
      as (Hi & _ & _ & cause & ->).
    exists cause. split; [done|].
    by rewrite (start_session_as_ensure _ _ _ _ _ d p), E. }
  revert E. unfold ensure_session. munfold.
  destruct (_instances st !! sid) as [inst|]; [done|].
  assert (∀ s : gset Z, d ∉ s ∖ {[d]}) as Hvnc.
  { intros s. rewrite elem_of_difference, elem_of_singleton. by intros [_ []]. }
  launch_cases be.
  - intros [= <- <-]; simpl. split_and!; try done.
    intros q pr Hq Hlk. apply lookup_lt_Some in Hlk. lia.
  - done.
  - match goal with |- context [is_running ?s ?n] =>
      replace (is_running s n) with true
        by (unfold is_running; simpl; by rewrite list_lookup_middle) end.
    intros [= <- <-]. simpl. split_and!; try done.
    + intros q Hq. rewrite list_lookup_alter_ne by lia. by apply lookup_app_l.
    + intros q pr Hq Hlk Hrun.
      assert (q = length (procs st)) as ->.
      { apply lookup_lt_Some in Hlk. rewrite length_alter, length_app in Hlk.
        simpl in Hlk. lia. }
      rewrite list_lookup_alter_eq, list_lookup_middle in Hlk by done.
      injection Hlk as <-. unfold on_sigterm in *. simpl in *. by destruct tr1.
  - intros [= <- <-]; simpl. split_and!; try done.
    intros q pr Hq Hlk. apply lookup_lt_Some in Hlk. lia.
Qed.

(** After the restart, with DOSBox ignoring SIGTERM and websockify failing:
    the VNC server of display 11 is down again. *)
Lemma launch_rollback_witness :
  ensure_session be_ws_fails "b" "bob" 11 7700 st_restart =
    (Raise (FailedToResume OSError),
     (ensure_session be_ws_fails "b" "bob" 11 7700 st_restart).2) ∧
  11 ∉ vnc (ensure_session be_ws_fails "b" "bob" 11 7700 st_restart).2.
Proof.
  assert (ensure_session be_ws_fails "b" "bob" 11 7700 st_restart =
          (Raise (FailedToResume OSError),
           (ensure_session be_ws_fails "b" "bob" 11 7700 st_restart).2)) as E
    by (vm_compute; reflexivity).
  split; [exact E|].
  by destruct (launch_rollback _ _ _ _ _ _ _ _ E) as (_ & _ & _ & H & _).
Defined.

(** ** A row without slot *)

(** X23. A row whose display or port is null is never validated, but it is
    refreshed: [validate] of its key, while the row is not expired, returns
    [None], sets [last_seen] of the row to [now_ts], and launches
    nothing. *)
Theorem validate_unset_slot cfg now be sid st row :
  sid ≠ ""%string →
  sessions st !! sid = Some row →
  SessionStore.expired cfg now row = false →
  col_display row = None ∨ col_websocket_port row = None →
  ∃ st', SessionStore.validate cfg now be sid st = (Ok None, st') ∧
         sessions st' !! sid = Some (SessionStore.set_last_seen now row) ∧
         _instances st' !! sid = _instances st !! sid ∧
         calls st' = calls (SessionStore._cleanup_expired cfg now st).2.
Proof.
  intros Hsid Hrow Hexp Hnull.
  destruct (validate_unfold cfg now be sid st Hsid) as (st1 & Hsw & ->).
  pose proof (swept_lookup _ _ _ _ sid Hsw) as H1. rewrite Hrow, Hexp in H1.
  pose proof (swept_instance _ _ _ _ _ _ Hsw H1) as Hi1.
  rewrite H1. simpl.
  exists (set_sessions (alter (SessionStore.set_last_seen now) sid) st1).
  split_and!.
  - by destruct Hnull as [-> | ->], (col_display row).
  - simpl. by rewrite lookup_alter_eq, H1.
  - done.
  - simpl. by rewrite (sw_run _ _ _ _ Hsw).
Qed.

(** Carol's row without slot, last seen at 99, validated at 101. *)
Lemma validate_unset_slot_witness :
  ("n" ≠ "")%string ∧
  sessions (SessionStore.validate cfg0 101 be_ok "n" st_null).2 !! "n"%string =
    Some (mkRow "carol" None None 95 101).
Proof.
  assert ("n" ≠ "")%string as Hne by done.
  split; [exact Hne|].
  destruct (validate_unset_slot cfg0 101 be_ok "n" st_null
              (mkRow "carol" None None 95 99) Hne) as (st' & E & Hrow & _);
    [done | done | by left |].
  by rewrite E.
Defined.
